(** * Request routing and error translation of the blob and table endpoints

    A shallow embedding of [blobStorageApi.ts] and of the table endpoint
    ([tableStorageApi]), two HTTP-triggered functions that pass requests on
    to a blob container and to an entity table.

    The storage SDK is the environment of the program.  A client is a record
    of state transformers over an arbitrary store state [Σ]; every operation
    either returns or throws.  The handlers run in a small monad that threads
    the store, records every SDK call in the order it is issued, and records
    what is written to the invocation log. *)

From Stdlib Require Import ZArith String Ascii List Bool.
From Stdlib Require Import Floats.PrimFloat Numbers.Cyclic.Int63.Uint63.
From stdpp Require Import gmap strings list fin_maps pretty.

Set Warnings "-register-all".
Local Open Scope Z_scope.
Local Open Scope list_scope.

(** ** JavaScript values *)

(** A JavaScript number is a binary64 float.  [JUndefined] is the value of a
    property that is not there; [JSON.parse] never yields it, and
    [JSON.stringify] leaves out a property that holds it. *)
Inductive jsval : Type :=
| JUndefined
| JNull
| JBool (b : bool)
| JNum (x : float)
| JStr (s : string)
| JArr (items : list jsval)
| JObj (props : list (string * jsval)).

(** [!v]: [undefined], [null], [false], [0], [-0], [NaN] and the empty string are falsy. *)
Definition falsy (v : jsval) : bool :=
  match v with
  | JUndefined | JNull => true
  | JBool b => negb b
  | JNum x => PrimFloat.eqb x 0%float || PrimFloat.is_nan x
  | JStr s => String.eqb s EmptyString
  | JArr _ | JObj _ => false
  end.

(** [a || b] *)
Definition js_or (a b : jsval) : jsval := if falsy a then b else a.

Fixpoint assoc {A : Type} (k : string) (l : list (string * A)) : option A :=
  match l with
  | [] => None
  | (k', v) :: rest => if String.eqb k k' then Some v else assoc k rest
  end.

(** Reading an own property of an object: a property list names each key
    once.  The property names read by the handlers are none that a boxed
    boolean, number, string or an array carries, so these give [undefined]. *)
Definition get_prop (v : jsval) (k : string) : jsval :=
  match v with
  | JObj props => match assoc k props with Some x => x | None => JUndefined end
  | _ => JUndefined
  end.

(** [null] and [undefined], the values that cannot be destructured. *)
Definition nullish (v : jsval) : bool :=
  match v with JNull | JUndefined => true | _ => false end.

(** A destructuring default [{ k = d }] applies to [undefined] only. *)
Definition with_default (v d : jsval) : jsval :=
  match v with JUndefined => d | _ => v end.

(** The result of [query.get] and [headers.get] is [string | null]. *)
Definition truthy (o : option string) : option string :=
  match o with
  | Some s => if String.eqb s EmptyString then None else Some s
  | None => None
  end.

Definition or_else (o : option string) (d : string) : string :=
  match truthy o with Some s => s | None => d end.

(** The length of an array as a number; array lengths are below 2^32, where
    the conversion is exact. *)
Definition js_of_nat (n : nat) : jsval :=
  JNum (PrimFloat.of_uint63 (Uint63.of_Z (Z.of_nat n))).

(** A text between double quotes, as the log lines print a URL. *)
Definition quoted (s : string) : string :=
  String "034"%char (s +:+ String "034"%char EmptyString).

(** ASCII letters only, which is all an HTTP method token can hold. *)
Definition upper_ascii (c : ascii) : ascii :=
  let n := nat_of_ascii c in
  if (Nat.leb 97 n && Nat.leb n 122)%bool then ascii_of_nat (n - 32) else c.

Fixpoint toUpperCase (s : string) : string :=
  match s with
  | EmptyString => EmptyString
  | String c rest => String (upper_ascii c) (toUpperCase rest)
  end.

Fixpoint toLowerCase (s : string) : string :=
  match s with
  | EmptyString => EmptyString
  | String c rest =>
      let n := nat_of_ascii c in
      String (if (Nat.leb 65 n && Nat.leb n 90)%bool then ascii_of_nat (n + 32) else c)
             (toLowerCase rest)
  end.

(** ** Errors, requests and responses *)

(** A thrown error object: [statusCode] is [undefined] or a number. *)
Record JsError : Type := { statusCode : option Z; message : string }.

(** [error.statusCode === code] *)
Definition status_is (error : JsError) (code : Z) : bool :=
  match statusCode error with
  | Some z => Z.eqb z code
  | None => false
  end.

Inductive Outcome (A : Type) : Type :=
| Threw (e : JsError)
| Returned (a : A).
Arguments Threw {A} e.
Arguments Returned {A} a.

(** [req_arrayBuffer] and [req_json] hold what [request.arrayBuffer()] and
    [request.json()] settle to. *)
Record HttpRequest : Type := {
  req_url : string;
  req_method : string;
  req_query : list (string * string);
  req_headers : list (string * string);
  req_arrayBuffer : list Byte.byte;
  req_json : Outcome jsval
}.

(** [URLSearchParams.get]: the first value of the name, or [null]. *)
Definition query_get (request : HttpRequest) (name : string) : option string :=
  assoc name (req_query request).

(** [Headers.get]: names compare without case; the values of a repeated name
    are joined by a comma and a space. *)
Definition headers_get (request : HttpRequest) (name : string) : option string :=
  match List.filter (fun h => String.eqb (toLowerCase (fst h)) (toLowerCase name))
               (req_headers request) with
  | [] => None
  | h :: more => Some (fold_left (fun acc h' => acc +:+ ", " +:+ snd h') more (snd h))
  end.

(** A body is either the argument of [JSON.stringify] or a byte buffer. *)
Inductive Body : Type :=
| BodyJson (v : jsval)
| BodyBuffer (content : list Byte.byte).

Record HttpResponseInit : Type := {
  status : Z;
  headers : list (string * string);
  body : Body
}.

Definition json_response (code : Z) (props : list (string * jsval)) : HttpResponseInit :=
  {| status := code; headers := []; body := BodyJson (JObj props) |}.

(** ** The storage SDK as seen by the handlers *)

Record UploadOptions : Type := {
  blobContentType : string;
  metadata : list (string * string)
}.

Inductive StoreCall : Type :=
| CallCreateIfNotExists (access : string)
| CallDownload (blobName : string)
| CallGetProperties (blobName : string)
| CallListBlobsFlat
| CallUpload (blobName : string) (content : list Byte.byte) (byteLength : nat)
             (options : UploadOptions)
| CallDeleteBlob (blobName : string) (deleteSnapshots : string)
| CallCreateTable
| CallGetEntity (partitionKey rowKey : string)
| CallListEntities (partitionKeyEq : string)
| CallCreateEntity (entity : jsval)
| CallUpsertEntity (entity : jsval) (mode : string)
| CallDeleteEntity (partitionKey rowKey : string).

Inductive LogEntry : Type :=
| ContextLog (text : string) (arg : option JsError)
| ContextError (text : string) (arg : JsError).

(** An asynchronous iterator, consumed by [for await]: the items it yields
    and the error it ends with, if any. *)
Record AsyncIter (A : Type) : Type := { yielded : list A; failure : option JsError }.
Arguments yielded {A} _.
Arguments failure {A} _.

Record DownloadResponse : Type := {
  readableStreamBody : option (AsyncIter (list Byte.byte))
}.

Record BlobProperties : Type := {
  contentType : option string;
  contentLength : option N
}.

Record BlobItem : Type := {
  item_name : string;
  item_contentLength : jsval;
  item_lastModified : jsval;
  item_contentType : jsval
}.

Record UploadResponse : Type := {
  up_requestId : jsval;
  up_etag : jsval;
  up_lastModified : jsval
}.

Record DeleteResponse : Type := { del_requestId : jsval }.

Record ContainerClient (Σ : Type) : Type := {
  createIfNotExists : string -> Σ -> Outcome unit * Σ;
  download : string -> Σ -> Outcome DownloadResponse * Σ;
  getProperties : string -> Σ -> Outcome BlobProperties * Σ;
  listBlobsFlat : Σ -> Outcome (list BlobItem) * Σ;
  upload : string -> list Byte.byte -> nat -> UploadOptions -> Σ -> Outcome UploadResponse * Σ;
  deleteBlob : string -> string -> Σ -> Outcome DeleteResponse * Σ;
  blobUrl : string -> string
}.
Arguments createIfNotExists {Σ} _.
Arguments download {Σ} _.
Arguments getProperties {Σ} _.
Arguments listBlobsFlat {Σ} _.
Arguments upload {Σ} _.
Arguments deleteBlob {Σ} _.
Arguments blobUrl {Σ} _.

Record TableClient (Σ : Type) : Type := {
  createTable : Σ -> Outcome unit * Σ;
  getEntity : string -> string -> Σ -> Outcome jsval * Σ;
  listEntities : string -> Σ -> Outcome (list jsval) * Σ;
  createEntity : jsval -> Σ -> Outcome unit * Σ;
  upsertEntity : jsval -> string -> Σ -> Outcome unit * Σ;
  deleteEntity : string -> string -> Σ -> Outcome unit * Σ
}.
Arguments createTable {Σ} _.
Arguments getEntity {Σ} _.
Arguments listEntities {Σ} _.
Arguments createEntity {Σ} _.
Arguments upsertEntity {Σ} _.
Arguments deleteEntity {Σ} _.

(** ** The monad of a request: store, SDK calls issued, invocation log *)

Record World (Σ : Type) : Type := {
  store : Σ;
  calls : list StoreCall;
  console : list LogEntry
}.
Arguments store {Σ} _.
Arguments calls {Σ} _.
Arguments console {Σ} _.

Definition M (Σ A : Type) : Type := World Σ -> Outcome A * World Σ.

Section Monad.
Context {Σ : Type}.

Definition ret {A} (a : A) : M Σ A := fun w => (Returned a, w).

Definition throw {A} (e : JsError) : M Σ A := fun w => (Threw e, w).

Definition bind {A B} (m : M Σ A) (k : A -> M Σ B) : M Σ B :=
  fun w => match m w with
           | (Returned a, w') => k a w'
           | (Threw e, w') => (Threw e, w')
           end.

(** [try { m } catch (error) { handler error }] *)
Definition try_catch {A} (m : M Σ A) (handler : JsError -> M Σ A) : M Σ A :=
  fun w => match m w with
           | (Returned a, w') => (Returned a, w')
           | (Threw e, w') => handler e w'
           end.

(** An awaited SDK call: it is recorded, then run against the store. *)
Definition sdk {A} (c : StoreCall) (op : Σ -> Outcome A * Σ) : M Σ A :=
  fun w => let (r, s') := op (store w) in
           (r, {| store := s'; calls := calls w ++ [c]; console := console w |}).

Definition await {A} (o : Outcome A) : M Σ A := fun w => (o, w).

(** [for await (const x of it) acc.push(x)] *)
Definition for_await {A} (it : AsyncIter A) : M Σ (list A) :=
  match failure it with
  | Some e => throw e
  | None => ret (yielded it)
  end.

Definition context_log (text : string) (arg : option JsError) : M Σ unit :=
  fun w => (Returned tt,
            {| store := store w; calls := calls w;
               console := console w ++ [ContextLog text arg] |}).

Definition context_error (text : string) (arg : JsError) : M Σ unit :=
  fun w => (Returned tt,
            {| store := store w; calls := calls w;
               console := console w ++ [ContextError text arg] |}).
End Monad.

Declare Scope js_scope.
Delimit Scope js_scope with js.
Notation "'let*' x ':=' m 'in' k" := (bind m (fun x => k))
  (at level 10, x name, m at level 100, k at level 200) : js_scope.
Notation "'run' m 'in' k" := (bind m (fun _ => k))
  (at level 10, m at level 100, k at level 200) : js_scope.
Local Open Scope js_scope.

Definition start {Σ} (s : Σ) : World Σ := {| store := s; calls := []; console := [] |}.

(** ** The blob endpoint, [blobStorageApi.ts] *)

Module BlobStorageApi.
Section Handlers.
Context {Σ : Type}.
(** [new BlobServiceClient(connectionString).getContainerClient(name)] *)
Variable BlobServiceClient : string -> string -> ContainerClient Σ.
(** [new Date().toISOString()] at the time of the request *)
Variable now : string.

Definition containerName : string := "documents".

Definition blob_item_json (blob : BlobItem) : jsval :=
  JObj [("name", JStr (item_name blob));
        ("size", item_contentLength blob);
        ("lastModified", item_lastModified blob);
        ("contentType", item_contentType blob)].

Definition handleGetRequest (request : HttpRequest) (containerClient : ContainerClient Σ)
  : M Σ HttpResponseInit :=
  let blobName := query_get request "blobName" in
  match truthy blobName with
  | Some blobName =>
      try_catch
        (let* downloadResponse :=
           sdk (CallDownload blobName) (download containerClient blobName) in
         match readableStreamBody downloadResponse with
         | None => ret (json_response 404 [("error", JStr "Blob not found or empty")])
         | Some stream =>
             let* chunks := for_await stream in
             let content := concat chunks in
             let* properties :=
               sdk (CallGetProperties blobName) (getProperties containerClient blobName) in
             ret {| status := 200;
                    headers :=
                      [("Content-Type",
                        or_else (contentType properties) "application/octet-stream");
                       ("Content-Length",
                        or_else (option_map pretty (contentLength properties)) "0")];
                    body := BodyBuffer content |}
         end)
        (fun error =>
           if status_is error 404
           then ret (json_response 404 [("error", JStr "Blob not found")])
           else throw error)
  | None =>
      let* blobs := sdk CallListBlobsFlat (listBlobsFlat containerClient) in
      let blobs := map blob_item_json blobs in
      ret (json_response 200 [("blobs", JArr blobs); ("count", js_of_nat (length blobs))])
  end.

Definition handlePostRequest (request : HttpRequest) (containerClient : ContainerClient Σ)
  : M Σ HttpResponseInit :=
  let blobName := query_get request "blobName" in
  let contentType := or_else (headers_get request "content-type") "application/octet-stream" in
  match truthy blobName with
  | None => ret (json_response 400 [("error", JStr "Missing required parameter: blobName")])
  | Some blobName =>
      try_catch
        (let body := req_arrayBuffer request in
         let* uploadResponse :=
           sdk (CallUpload blobName body (length body)
                  {| blobContentType := contentType;
                     metadata := [("uploadedAt", now); ("uploadedBy", "azure-function")] |})
               (upload containerClient blobName body (length body)
                  {| blobContentType := contentType;
                     metadata := [("uploadedAt", now); ("uploadedBy", "azure-function")] |}) in
         ret (json_response 201
                [("message", JStr "Blob uploaded successfully");
                 ("blobName", JStr blobName);
                 ("requestId", up_requestId uploadResponse);
                 ("etag", up_etag uploadResponse);
                 ("lastModified", up_lastModified uploadResponse);
                 ("url", JStr (blobUrl containerClient blobName))]))
        (fun error => throw error)
  end.

Definition handleDeleteRequest (request : HttpRequest) (containerClient : ContainerClient Σ)
  : M Σ HttpResponseInit :=
  let blobName := query_get request "blobName" in
  match truthy blobName with
  | None => ret (json_response 400 [("error", JStr "Missing required parameter: blobName")])
  | Some blobName =>
      try_catch
        (let* deleteResponse :=
           sdk (CallDeleteBlob blobName "include")
               (deleteBlob containerClient blobName "include") in
         ret (json_response 200
                [("message", JStr "Blob deleted successfully");
                 ("blobName", JStr blobName);
                 ("requestId", del_requestId deleteResponse)]))
        (fun error =>
           if status_is error 404
           then ret (json_response 404 [("error", JStr "Blob not found")])
           else throw error)
  end.

Definition blobStorageApi (connectionString : option string) (request : HttpRequest)
  : M Σ HttpResponseInit :=
  run context_log ("Blob Storage API processed request for url " +:+ quoted (req_url request))
                  None in
  match truthy connectionString with
  | None =>
      ret (json_response 500
             [("error", JStr "Azure Storage connection string not configured")])
  | Some connectionString =>
      let containerClient := BlobServiceClient connectionString containerName in
      run try_catch
            (sdk (CallCreateIfNotExists "blob") (createIfNotExists containerClient "blob"))
            (fun error => context_log "Container creation result:" (Some error)) in
      let method := toUpperCase (req_method request) in
      try_catch
        (if String.eqb method "GET" then handleGetRequest request containerClient
         else if String.eqb method "POST" then handlePostRequest request containerClient
         else if String.eqb method "DELETE" then handleDeleteRequest request containerClient
         else ret (json_response 405 [("error", JStr "Method not allowed")]))
        (fun error =>
           run context_error "Error in blob storage operation:" error in
           ret (json_response 500
                  [("error", JStr "Internal server error");
                   ("details", JStr (message error))]))
  end.
End Handlers.
End BlobStorageApi.

(** ** The table endpoint, [tableStorageApi] *)

Module TableStorageApi.
Section Handlers.
Context {Σ : Type}.
(** [new TableClient(connectionString, tableName)] *)
Variable TableClient_new : string -> string -> TableClient Σ.

(** [const { userId, department = 'default', name, email, age } = body]
    throws a [TypeError] when [body] is [null] or [undefined]. *)
Definition destructure (body : jsval) : M Σ (jsval * jsval * jsval * jsval * jsval) :=
  match body with
  | JNull =>
      throw {| statusCode := None;
               message := "Cannot destructure property 'userId' of 'body' as it is null." |}
  | JUndefined =>
      throw {| statusCode := None;
               message := "Cannot destructure property 'userId' of 'body' as it is undefined." |}
  | _ =>
      ret (get_prop body "userId",
           with_default (get_prop body "department") (JStr "default"),
           get_prop body "name",
           get_prop body "email",
           get_prop body "age")
  end.

Definition UserEntity (partitionKey rowKey name email age : jsval) : jsval :=
  JObj [("partitionKey", partitionKey);
        ("rowKey", rowKey);
        ("name", name);
        ("email", email);
        ("age", age)].

Definition handleGetRequest (request : HttpRequest) (tableClient : TableClient Σ)
  : M Σ HttpResponseInit :=
  let userId := query_get request "userId" in
  let department := or_else (query_get request "department") "default" in
  match truthy userId with
  | Some userId =>
      try_catch
        (let* entity :=
           sdk (CallGetEntity department userId) (getEntity tableClient department userId) in
         ret {| status := 200; headers := []; body := BodyJson entity |})
        (fun error =>
           if status_is error 404
           then ret (json_response 404 [("error", JStr "User not found")])
           else throw error)
  | None =>
      let* users :=
        sdk (CallListEntities department) (listEntities tableClient department) in
      ret (json_response 200 [("users", JArr users); ("count", js_of_nat (length users))])
  end.

Definition handlePostRequest (request : HttpRequest) (tableClient : TableClient Σ)
  : M Σ HttpResponseInit :=
  let* body := await (req_json request) in
  let* fields := destructure body in
  let '(userId, department, name, email, age) := fields in
  if falsy userId || falsy name || falsy email then
    ret (json_response 400 [("error", JStr "Missing required fields: userId, name, email")])
  else
    let userEntity := UserEntity department userId name email (js_or age (JNum 0)) in
    run sdk (CallCreateEntity userEntity) (createEntity tableClient userEntity) in
    ret (json_response 201
           [("message", JStr "User created successfully"); ("user", userEntity)]).

Definition handlePutRequest (request : HttpRequest) (tableClient : TableClient Σ)
  : M Σ HttpResponseInit :=
  let* body := await (req_json request) in
  let* fields := destructure body in
  let '(userId, department, name, email, age) := fields in
  if falsy userId then
    ret (json_response 400 [("error", JStr "Missing required field: userId")])
  else
    let userEntity := UserEntity department userId name email (js_or age (JNum 0)) in
    run sdk (CallUpsertEntity userEntity "Replace")
            (upsertEntity tableClient userEntity "Replace") in
    ret (json_response 200
           [("message", JStr "User updated successfully"); ("user", userEntity)]).

Definition handleDeleteRequest (request : HttpRequest) (tableClient : TableClient Σ)
  : M Σ HttpResponseInit :=
  let userId := query_get request "userId" in
  let department := or_else (query_get request "department") "default" in
  match truthy userId with
  | None => ret (json_response 400 [("error", JStr "Missing required parameter: userId")])
  | Some userId =>
      try_catch
        (run sdk (CallDeleteEntity department userId)
                 (deleteEntity tableClient department userId) in
         ret (json_response 200 [("message", JStr "User deleted successfully")]))
        (fun error =>
           if status_is error 404
           then ret (json_response 404 [("error", JStr "User not found")])
           else throw error)
  end.

Definition tableStorageApi (connectionString : option string) (request : HttpRequest)
  : M Σ HttpResponseInit :=
  run context_log ("Table Storage API processed request for url " +:+ quoted (req_url request))
                  None in
  match truthy connectionString with
  | None =>
      ret (json_response 500
             [("error", JStr "Azure Storage connection string not configured")])
  | Some connectionString =>
      let tableClient := TableClient_new connectionString "users" in
      run try_catch
            (sdk CallCreateTable (createTable tableClient))
            (fun error => context_log "Table creation result:" (Some error)) in
      let method := toUpperCase (req_method request) in
      try_catch
        (if String.eqb method "GET" then handleGetRequest request tableClient
         else if String.eqb method "POST" then handlePostRequest request tableClient
         else if String.eqb method "PUT" then handlePutRequest request tableClient
         else if String.eqb method "DELETE" then handleDeleteRequest request tableClient
         else ret (json_response 405 [("error", JStr "Method not allowed")]))
        (fun error =>
           run context_error "Error in table storage operation:" error in
           ret (json_response 500
                  [("error", JStr "Internal server error");
                   ("details", JStr (message error))]))
  end.
End Handlers.
End TableStorageApi.

Import BlobStorageApi TableStorageApi.

(** ** In-memory stores

    Test doubles for the two services, with the behaviour the data model
    gives them: a blob is addressed by its name and an upload replaces it; a
    record is addressed by (partition key, row key), a create of a key that
    is taken fails, an upsert in mode Replace puts the new record in place of
    the old one.  A property holding [undefined] is not stored.  Creating a
    table that is there already fails, which is the failure the guard step
    expects. *)

Module MemoryContainer.
Record StoredBlob : Type := { content : list Byte.byte; mime : string }.

Record state : Type := { containerExists : bool; blobs : gmap string StoredBlob }.

Definition empty : state := {| containerExists := false; blobs := ∅ |}.

Definition container_not_found : JsError :=
  {| statusCode := Some 404; message := "The specified container does not exist." |}.
Definition blob_not_found : JsError :=
  {| statusCode := Some 404; message := "The specified blob does not exist." |}.

Definition in_container {A} (s : state) (k : Outcome A * state) : Outcome A * state :=
  if containerExists s then k else (Threw container_not_found, s).

Definition item (entry : string * StoredBlob) : BlobItem :=
  {| item_name := fst entry;
     item_contentLength := js_of_nat (length (content (snd entry)));
     item_lastModified := JStr "2024-01-01T00:00:00.000Z";
     item_contentType := JStr (mime (snd entry)) |}.

Definition client : ContainerClient state :=
  {| createIfNotExists := fun _ s =>
       (Returned tt, {| containerExists := true; blobs := blobs s |});
     download := fun name s =>
       in_container s
         match blobs s !! name with
         | Some b =>
             (Returned {| readableStreamBody :=
                            Some {| yielded := [content b]; failure := None |} |}, s)
         | None => (Threw blob_not_found, s)
         end;
     getProperties := fun name s =>
       in_container s
         match blobs s !! name with
         | Some b =>
             (Returned {| contentType := Some (mime b);
                          contentLength := Some (N.of_nat (length (content b))) |}, s)
         | None => (Threw blob_not_found, s)
         end;
     listBlobsFlat := fun s =>
       in_container s (Returned (map item (map_to_list (blobs s))), s);
     upload := fun name bytes _ options s =>
       in_container s
         (Returned {| up_requestId := JStr "req-1"; up_etag := JStr "0x1";
                      up_lastModified := JStr "2024-01-01T00:00:00.000Z" |},
          {| containerExists := true;
             blobs := <[name := {| content := bytes; mime := blobContentType options |}]>
                        (blobs s) |});
     deleteBlob := fun name _ s =>
       in_container s
         match blobs s !! name with
         | Some _ =>
             (Returned {| del_requestId := JStr "req-2" |},
              {| containerExists := true; blobs := delete name (blobs s) |})
         | None => (Threw blob_not_found, s)
         end;
     blobUrl := fun name => "https://account.blob.core.windows.net/documents/" +:+ name |}.

(** A client whose download responses carry no readable stream. *)
Definition streamless : ContainerClient state :=
  {| createIfNotExists := createIfNotExists client;
     download := fun name s =>
       in_container s
         match blobs s !! name with
         | Some b => (Returned {| readableStreamBody := None |}, s)
         | None => (Threw blob_not_found, s)
         end;
     getProperties := getProperties client;
     listBlobsFlat := listBlobsFlat client;
     upload := upload client;
     deleteBlob := deleteBlob client;
     blobUrl := blobUrl client |}.
End MemoryContainer.

Module MemoryTable.
Record state : Type := { tableExists : bool; rows : gmap (string * string) jsval }.

Definition empty : state := {| tableExists := false; rows := ∅ |}.

Definition table_exists : JsError :=
  {| statusCode := Some 409; message := "The table specified already exists." |}.
Definition table_not_found : JsError :=
  {| statusCode := Some 404; message := "The table specified does not exist." |}.
Definition entity_not_found : JsError :=
  {| statusCode := Some 404; message := "The specified resource does not exist." |}.
Definition entity_exists : JsError :=
  {| statusCode := Some 409; message := "The specified entity already exists." |}.
Definition bad_key : JsError :=
  {| statusCode := Some 400; message := "One of the request inputs is not valid." |}.

Definition in_table {A} (s : state) (k : Outcome A * state) : Outcome A * state :=
  if tableExists s then k else (Threw table_not_found, s).

Definition key_of (entity : jsval) : option (string * string) :=
  match get_prop entity "partitionKey", get_prop entity "rowKey" with
  | JStr pk, JStr rk => Some (pk, rk)
  | _, _ => None
  end.

Definition defined (p : string * jsval) : bool :=
  match snd p with JUndefined => false | _ => true end.

(** What is sent over the wire: the properties that hold a value. *)
Definition stored (entity : jsval) : jsval :=
  match entity with
  | JObj props => JObj (List.filter defined props)
  | _ => entity
  end.

Definition merged (old new : jsval) : jsval :=
  match old, new with
  | JObj o, JObj n =>
      JObj (n ++ List.filter (fun p => match assoc (fst p) n with Some _ => false | None => true end) o)
  | _, _ => new
  end.

Definition put (s : state) (k : string * string) (e : jsval) : state :=
  {| tableExists := tableExists s; rows := <[k := e]> (rows s) |}.

Definition client : TableClient state :=
  {| createTable := fun s =>
       if tableExists s then (Threw table_exists, s)
       else (Returned tt, {| tableExists := true; rows := rows s |});
     getEntity := fun pk rk s =>
       in_table s
         match rows s !! (pk, rk) with
         | Some e => (Returned e, s)
         | None => (Threw entity_not_found, s)
         end;
     listEntities := fun pk s =>
       in_table s
         (Returned (map snd (List.filter (fun kv => String.eqb (fst (fst kv)) pk)
                                    (map_to_list (rows s)))), s);
     createEntity := fun e s =>
       in_table s
         match key_of e with
         | None => (Threw bad_key, s)
         | Some k =>
             match rows s !! k with
             | Some _ => (Threw entity_exists, s)
             | None => (Returned tt, put s k (stored e))
             end
         end;
     upsertEntity := fun e mode s =>
       in_table s
         match key_of e with
         | None => (Threw bad_key, s)
         | Some k =>
             if String.eqb mode "Replace" then (Returned tt, put s k (stored e))
             else match rows s !! k with
                  | Some old => (Returned tt, put s k (merged old (stored e)))
                  | None => (Returned tt, put s k (stored e))
                  end
         end;
     deleteEntity := fun pk rk s =>
       in_table s
         match rows s !! (pk, rk) with
         | Some _ =>
             (Returned tt,
              {| tableExists := tableExists s; rows := delete (pk, rk) (rows s) |})
         | None => (Threw entity_not_found, s)
         end |}.
End MemoryTable.

(** ** Vocabulary of the statements *)

Definition not_configured : HttpResponseInit :=
  json_response 500 [("error", JStr "Azure Storage connection string not configured")].

(** The response of the outermost [catch]. *)
Definition internal_error (e : JsError) : HttpResponseInit :=
  json_response 500 [("error", JStr "Internal server error"); ("details", JStr (message e))].

Definition method_is (request : HttpRequest) (m : string) : Prop :=
  toUpperCase (req_method request) = m.

(** The store as the guard step leaves it, whatever the creation attempt
    answered. *)
Definition ensured_container {Σ} (cc : ContainerClient Σ) (s : Σ) : Σ :=
  snd (createIfNotExists cc "blob" s).

Definition ensured_table {Σ} (tc : TableClient Σ) (s : Σ) : Σ :=
  snd (createTable tc s).

(** A JSON body has field [k] when it is an object with a value under [k]. *)
Definition has_field (k : string) (b : Body) : bool :=
  match b with
  | BodyJson (JObj props) =>
      match assoc k props with
      | Some JUndefined | None => false
      | Some _ => true
      end
  | _ => false
  end.

Definition has_error_or_message (b : Body) : bool :=
  has_field "error" b || has_field "message" b.

(** The same client, its creation attempt answering as [o] says. *)
Definition container_answering {Σ} (o : string -> Σ -> Outcome unit) (cc : ContainerClient Σ)
  : ContainerClient Σ :=
  {| createIfNotExists := fun access s => (o access s, snd (createIfNotExists cc access s));
     download := download cc;
     getProperties := getProperties cc;
     listBlobsFlat := listBlobsFlat cc;
     upload := upload cc;
     deleteBlob := deleteBlob cc;
     blobUrl := blobUrl cc |}.

Definition table_answering {Σ} (o : Σ -> Outcome unit) (tc : TableClient Σ) : TableClient Σ :=
  {| createTable := fun s => (o s, snd (createTable tc s));
     getEntity := getEntity tc;
     listEntities := listEntities tc;
     createEntity := createEntity tc;
     upsertEntity := upsertEntity tc;
     deleteEntity := deleteEntity tc |}.

Definition missing_blobName : HttpResponseInit :=
  json_response 400 [("error", JStr "Missing required parameter: blobName")].
Definition missing_post_fields : HttpResponseInit :=
  json_response 400 [("error", JStr "Missing required fields: userId, name, email")].
Definition missing_put_field : HttpResponseInit :=
  json_response 400 [("error", JStr "Missing required field: userId")].
Definition missing_userId : HttpResponseInit :=
  json_response 400 [("error", JStr "Missing required parameter: userId")].

Definition blob_not_found : HttpResponseInit :=
  json_response 404 [("error", JStr "Blob not found")].
Definition user_not_found : HttpResponseInit :=
  json_response 404 [("error", JStr "User not found")].

(** The download of a named blob fails with [e]: at the download call, while
    the stream is read, or at the properties call that follows. *)
Definition download_fails {Σ} (cc : ContainerClient Σ) (name : string) (s : Σ) (e : JsError)
  : Prop :=
  (exists s', download cc name s = (Threw e, s'))
  \/ (exists s' read,
         download cc name s
         = (Returned {| readableStreamBody := Some {| yielded := read; failure := Some e |} |},
            s'))
  \/ (exists s' read s'',
         download cc name s
         = (Returned {| readableStreamBody := Some {| yielded := read; failure := None |} |},
            s')
         /\ getProperties cc name s' = (Threw e, s'')).

(** What the caller sees of a store error [e] on a lookup or delete path. *)
Definition not_found_or_500 (not_found : HttpResponseInit) (e : JsError)
           (r : Outcome HttpResponseInit) : Prop :=
  (statusCode e = Some 404 -> r = Returned not_found /\ status not_found = 404)
  /\ (statusCode e <> Some 404 -> r = Returned (internal_error e)
                                  /\ status (internal_error e) = 500).

(** The record a POST or PUT builds from the request body. *)
Definition record_of (body : jsval) : jsval :=
  UserEntity (with_default (get_prop body "department") (JStr "default"))
             (get_prop body "userId") (get_prop body "name") (get_prop body "email")
             (js_or (get_prop body "age") (JNum 0)).

Definition created (user : jsval) : HttpResponseInit :=
  json_response 201 [("message", JStr "User created successfully"); ("user", user)].

Definition updated (user : jsval) : HttpResponseInit :=
  json_response 200 [("message", JStr "User updated successfully"); ("user", user)].

Definition is_blob_listing (b : Body) : Prop :=
  exists items, b = BodyJson (JObj [("blobs", JArr items); ("count", js_of_nat (length items))]).

Definition is_user_listing (b : Body) : Prop :=
  exists users, b = BodyJson (JObj [("users", JArr users); ("count", js_of_nat (length users))]).

Definition is_bytes (b : Body) : Prop := exists content, b = BodyBuffer content.

(** ** Requests and stores of the worked examples *)

Definition a_request (m : string) (q : list (string * string)) (b : Outcome jsval) : HttpRequest :=
  {| req_url := "http://localhost:7071/api/x"; req_method := m; req_query := q;
     req_headers := []; req_arrayBuffer := []; req_json := b |}.

Definition one_blob : MemoryContainer.state :=
  {| MemoryContainer.containerExists := true;
     MemoryContainer.blobs :=
       {[ "a.txt"%string := {| MemoryContainer.content := [Byte.x78];
                               MemoryContainer.mime := "text/plain" |} ]} |}.

Definition conn : option string := Some "UseDevelopmentStorage=true"%string.

Definition memory_blobs : string -> string -> ContainerClient MemoryContainer.state :=
  fun _ _ => MemoryContainer.client.

Definition memory_table : string -> string -> TableClient MemoryTable.state :=
  fun _ _ => MemoryTable.client.

Definition nameless_user : jsval := JObj [("name", JStr "A"); ("email", JStr "a@x.com")].

Definition blank_userId : jsval :=
  JObj [("userId", JStr EmptyString); ("name", JStr "A"); ("email", JStr "a@x.com")].

Definition alice : jsval :=
  JObj [("partitionKey", JStr "default"); ("rowKey", JStr "u1"); ("name", JStr "A");
        ("email", JStr "a@x.com"); ("age", JNum 0)].

Definition alice_body : jsval :=
  JObj [("userId", JStr "u1"); ("name", JStr "A"); ("email", JStr "a@x.com")].

Definition table_with (k : string * string) (e : jsval) : MemoryTable.state :=
  {| MemoryTable.tableExists := true; MemoryTable.rows := {[ k := e ]} |}.

Definition bob_old : jsval :=
  JObj [("partitionKey", JStr "default"); ("rowKey", JStr "u1"); ("name", JStr "Bob");
        ("email", JStr "bob@x.com"); ("age", JNum 41)].

Definition bare_put : jsval := JObj [("userId", JStr "u1")].

(** ** Vocabulary of the further properties *)

Definition method_not_allowed : HttpResponseInit :=
  json_response 405 [("error", JStr "Method not allowed")].

(** The 200 response of a blob download. *)
Definition downloaded (properties : BlobProperties) (content : list Byte.byte)
  : HttpResponseInit :=
  {| status := 200;
     headers := [("Content-Type", or_else (contentType properties) "application/octet-stream");
                 ("Content-Length", or_else (option_map pretty (contentLength properties)) "0")];
     body := BodyBuffer content |}.

Definition uploaded {Σ} (cc : ContainerClient Σ) (name : string) (r : UploadResponse)
  : HttpResponseInit :=
  json_response 201
    [("message", JStr "Blob uploaded successfully");
     ("blobName", JStr name);
     ("requestId", up_requestId r);
     ("etag", up_etag r);
     ("lastModified", up_lastModified r);
     ("url", JStr (blobUrl cc name))].

(** The options a blob POST passes to [upload]. *)
Definition upload_options (request : HttpRequest) (now : string) : UploadOptions :=
  {| blobContentType := or_else (headers_get request "content-type") "application/octet-stream";
     metadata := [("uploadedAt", now); ("uploadedBy", "azure-function")] |}.

Definition blob_deleted (name : string) (r : DeleteResponse) : HttpResponseInit :=
  json_response 200
    [("message", JStr "Blob deleted successfully");
     ("blobName", JStr name);
     ("requestId", del_requestId r)].

Definition blob_listing (items : list BlobItem) : HttpResponseInit :=
  json_response 200
    [("blobs", JArr (map blob_item_json items)); ("count", js_of_nat (length items))].

Definition user_listing (users : list jsval) : HttpResponseInit :=
  json_response 200 [("users", JArr users); ("count", js_of_nat (length users))].

Definition fetched (entity : jsval) : HttpResponseInit :=
  {| status := 200; headers := []; body := BodyJson entity |}.

Definition user_deleted : HttpResponseInit :=
  json_response 200 [("message", JStr "User deleted successfully")].

(** The answer to a store error on a lookup or delete path. *)
Definition translated (not_found : HttpResponseInit) (e : JsError) : HttpResponseInit :=
  if status_is e 404 then not_found else internal_error e.

(** The partition a GET or DELETE addresses. *)
Definition department_of (request : HttpRequest) : string :=
  or_else (query_get request "department") "default".

Definition with_method (m : string) (request : HttpRequest) : HttpRequest :=
  {| req_url := req_url request; req_method := m; req_query := req_query request;
     req_headers := req_headers request; req_arrayBuffer := req_arrayBuffer request;
     req_json := req_json request |}.

Definition with_body (bytes : list Byte.byte) (j : Outcome jsval) (request : HttpRequest)
  : HttpRequest :=
  {| req_url := req_url request; req_method := req_method request;
     req_query := req_query request; req_headers := req_headers request;
     req_arrayBuffer := bytes; req_json := j |}.

(** Stores that answer every call with the error [e]. *)
Definition failing_blobs (e : JsError) : string -> string -> ContainerClient unit :=
  fun _ _ =>
    {| createIfNotExists := fun _ s => (Threw e, s);
       download := fun _ s => (Threw e, s);
       getProperties := fun _ s => (Threw e, s);
       listBlobsFlat := fun s => (Threw e, s);
       upload := fun _ _ _ _ s => (Threw e, s);
       deleteBlob := fun _ _ s => (Threw e, s);
       blobUrl := fun name => name |}.

Definition failing_table (e : JsError) : string -> string -> TableClient unit :=
  fun _ _ =>
    {| createTable := fun s => (Threw e, s);
       getEntity := fun _ _ s => (Threw e, s);
       listEntities := fun _ s => (Threw e, s);
       createEntity := fun _ s => (Threw e, s);
       upsertEntity := fun _ _ s => (Threw e, s);
       deleteEntity := fun _ _ s => (Threw e, s) |}.

Definition gone : JsError :=
  {| statusCode := Some 404; message := "The specified resource does not exist." |}.

Definition bad_json : JsError :=
  {| statusCode := None; message := "Unexpected end of JSON input" |}.

Definition stamp : string := "2024-01-01T00:00:00.000Z".

Definition text_upload : HttpRequest :=
  {| req_url := "http://localhost:7071/api/blob?blobName=b.txt"; req_method := "POST";
     req_query := [("blobName", "b.txt")]; req_headers := [("Content-Type", "text/plain")];
     req_arrayBuffer := [Byte.x68; Byte.x69]; req_json := Threw bad_json |}.

(** The in-memory stores once the guard step has run. *)
Definition opened_container (st : MemoryContainer.state) : MemoryContainer.state :=
  {| MemoryContainer.containerExists := true;
     MemoryContainer.blobs := MemoryContainer.blobs st |}.

Definition opened_table (st : MemoryTable.state) : MemoryTable.state :=
  {| MemoryTable.tableExists := true; MemoryTable.rows := MemoryTable.rows st |}.

(** The error a table POST or PUT meets before its presence check: the
    rejection of [request.json()], or the type error of destructuring. *)
Definition body_error (request : HttpRequest) : option JsError :=
  match req_json request with
  | Threw e => Some e
  | Returned JNull =>
      Some {| statusCode := None;
              message := "Cannot destructure property 'userId' of 'body' as it is null." |}
  | Returned JUndefined =>
      Some {| statusCode := None;
              message := "Cannot destructure property 'userId' of 'body' as it is undefined." |}
  | Returned _ => None
  end.

Definition carol_body : jsval :=
  JObj [("userId", JStr "u7"); ("department", JStr "eng"); ("name", JStr "Carol");
        ("email", JStr "carol@x.com"); ("age", JNum 30); ("role", JStr "admin")].

Definition carol_query : list (string * string) := [("userId", "u7"); ("department", "eng")].

Definition blank_department_body : jsval :=
  JObj [("userId", JStr "u1"); ("department", JStr EmptyString); ("name", JStr "A");
        ("email", JStr "a@x.com")].



(** The SDK calls that leave the store as it is. *)
Definition read_only (call : StoreCall) : bool :=
  match call with
  | CallDownload _ | CallGetProperties _ | CallListBlobsFlat
  | CallGetEntity _ _ | CallListEntities _ => true
  | _ => false
  end.

(** What the guard step writes to the log about the creation attempt. *)
Definition creation_log (text : string) (o : Outcome unit) : list LogEntry :=
  match o with
  | Threw e => [ContextLog text (Some e)]
  | Returned _ => []
  end.

(** The names a table POST or PUT reads from its body. *)
Definition read_names : list string := ["userId"; "department"; "name"; "email"; "age"].

(** ** Proof support *)

Ltac unfold_api :=
  cbv beta iota zeta delta
    [blobStorageApi BlobStorageApi.handleGetRequest BlobStorageApi.handlePostRequest
     BlobStorageApi.handleDeleteRequest containerName
     tableStorageApi TableStorageApi.handleGetRequest TableStorageApi.handlePostRequest
     TableStorageApi.handlePutRequest TableStorageApi.handleDeleteRequest
     destructure
     bind try_catch sdk ret throw await for_await context_log context_error
     method_is ensured_container ensured_table];
  cbn [store calls console].

Ltac js_simpl :=
  cbn [store calls console fst snd String.eqb Ascii.eqb Bool.eqb
       createIfNotExists createTable download getProperties listBlobsFlat upload deleteBlob
       getEntity listEntities createEntity upsertEntity deleteEntity
       container_answering table_answering].

Tactic Notation "js_simpl" "in" hyp(H) :=
  cbn [store calls console fst snd String.eqb Ascii.eqb Bool.eqb
       createIfNotExists createTable download getProperties listBlobsFlat upload deleteBlob
       getEntity listEntities createEntity upsertEntity deleteEntity
       container_answering table_answering] in H.

Ltac case_split :=
  repeat (js_simpl;
          match goal with
          | |- context [match ?x with _ => _ end] =>
              lazymatch x with
              | context [match _ with _ => _ end] => fail
              | _ => destruct x eqn:?
              end
          end);
  js_simpl.


Ltac wrong_method :=
  match goal with
  | Hm : ?m = _, H : String.eqb ?m _ = false |- _ => rewrite Hm in H; discriminate H
  end.

(** ** The configuration guard *)

(** C6: with no credential in the environment, either endpoint answers 500
    with the "not configured" error body for every request; the store is
    left as it was and no SDK call is issued. *)
Theorem unconfigured_short_circuits :
  forall (ΣB ΣT : Type) (B : string -> string -> ContainerClient ΣB)
         (T : string -> string -> TableClient ΣT) (now : string)
         (request : HttpRequest) (wb : World ΣB) (wt : World ΣT),
    (exists w', blobStorageApi B now None request wb = (Returned not_configured, w')
                /\ store w' = store wb /\ calls w' = calls wb)
    /\ (exists w', tableStorageApi T None request wt = (Returned not_configured, w')
                /\ store w' = store wt /\ calls w' = calls wt).
Proof.
  intros. split; eexists; (split; [reflexivity | split; reflexivity]).
Qed.

(** ** Blob download *)

(** C10: a blob GET with a blobName whose download call returns a response
    without a readable stream body answers 404 with the body
    [{error: "Blob not found or empty"}], not 200 with bytes. *)
Theorem download_without_stream_is_404 :
  forall (Σ : Type) (B : string -> string -> ContainerClient Σ) (now : string)
         (cs : option string) (c name : string) (request : HttpRequest)
         (w : World Σ) (s2 : Σ),
    truthy cs = Some c ->
    method_is request "GET" ->
    truthy (query_get request "blobName") = Some name ->
    download (B c "documents"%string) name (ensured_container (B c "documents"%string) (store w))
      = (Returned {| readableStreamBody := None |}, s2) ->
    exists w',
      blobStorageApi B now cs request w
      = (Returned (json_response 404 [("error", JStr "Blob not found or empty")]), w')
      /\ store w' = s2.
Proof.
  intros * Hc Hm Hq Hd.
  destruct w as [s cl lg]. revert Hd Hm. unfold_api. intros Hd Hm.
  rewrite Hc, Hm, Hq. js_simpl.
  destruct (createIfNotExists _ _ _) as [[e|[]] s1] eqn:Hg; js_simpl in Hd; js_simpl;
    rewrite Hd; js_simpl; eexists; split; reflexivity.
Qed.

Lemma download_without_stream_is_404_witness :
  exists w',
    blobStorageApi (fun _ _ => MemoryContainer.streamless) "2024-01-01T00:00:00.000Z"
      (Some "UseDevelopmentStorage=true"%string)
      (a_request "get" [("blobName", "a.txt")] (Returned JNull)) (start one_blob)
    = (Returned (json_response 404 [("error", JStr "Blob not found or empty")]), w')
    /\ store w' = one_blob.
Proof.
  apply (download_without_stream_is_404 _ _ _ _ "UseDevelopmentStorage=true" "a.txt");
    reflexivity.
Defined.

(** ** Presence checks *)

Section PresenceChecks.
Context {ΣB ΣT : Type}.
Variable B : string -> string -> ContainerClient ΣB.
Variable T : string -> string -> TableClient ΣT.
Variable now : string.
Variables (cs : option string) (c : string).
Hypothesis configured : truthy cs = Some c.

Lemma blob_falsy_name (request : HttpRequest) (w : World ΣB) :
  method_is request "POST" \/ method_is request "DELETE" ->
  truthy (query_get request "blobName") = None ->
  exists w',
    blobStorageApi B now cs request w = (Returned missing_blobName, w')
    /\ store w' = ensured_container (B c "documents"%string) (store w)
    /\ calls w' = calls w ++ [CallCreateIfNotExists "blob"].
Proof.
  intros Hm Hq. destruct w as [s cl lg]. revert Hm. unfold_api. intros Hm.
  rewrite configured, Hq.
  destruct (createIfNotExists _ _ _) as [[e|[]] s1] eqn:Hg;
    destruct Hm as [-> | ->]; js_simpl; eexists; repeat split; reflexivity.
Qed.

Lemma table_post_falsy_field (request : HttpRequest) (body : jsval) (w : World ΣT) :
  method_is request "POST" ->
  req_json request = Returned body ->
  nullish body = false ->
  falsy (get_prop body "userId") || falsy (get_prop body "name")
    || falsy (get_prop body "email") = true ->
  exists w',
    tableStorageApi T cs request w = (Returned missing_post_fields, w')
    /\ store w' = ensured_table (T c "users"%string) (store w)
    /\ calls w' = calls w ++ [CallCreateTable].
Proof.
  intros Hm Hj Hn Hf. destruct w as [s cl lg]. revert Hm. unfold_api. intros ->.
  rewrite configured, Hj.
  destruct (createTable _ _) as [[e|[]] s1] eqn:Hg; js_simpl;
    (destruct body; try discriminate Hn; js_simpl; rewrite Hf;
     eexists; repeat split; reflexivity).
Qed.

Lemma table_put_falsy_userId (request : HttpRequest) (body : jsval) (w : World ΣT) :
  method_is request "PUT" ->
  req_json request = Returned body ->
  nullish body = false ->
  falsy (get_prop body "userId") = true ->
  exists w',
    tableStorageApi T cs request w = (Returned missing_put_field, w')
    /\ store w' = ensured_table (T c "users"%string) (store w)
    /\ calls w' = calls w ++ [CallCreateTable].
Proof.
  intros Hm Hj Hn Hf. destruct w as [s cl lg]. revert Hm. unfold_api. intros ->.
  rewrite configured, Hj.
  destruct (createTable _ _) as [[e|[]] s1] eqn:Hg; js_simpl;
    (destruct body; try discriminate Hn; js_simpl; rewrite Hf;
     eexists; repeat split; reflexivity).
Qed.

Lemma table_delete_falsy_userId (request : HttpRequest) (w : World ΣT) :
  method_is request "DELETE" ->
  truthy (query_get request "userId") = None ->
  exists w',
    tableStorageApi T cs request w = (Returned missing_userId, w')
    /\ store w' = ensured_table (T c "users"%string) (store w)
    /\ calls w' = calls w ++ [CallCreateTable].
Proof.
  intros Hm Hq. destruct w as [s cl lg]. revert Hm. unfold_api. intros ->.
  rewrite configured, Hq.
  destruct (createTable _ _) as [[e|[]] s1] eqn:Hg; js_simpl;
    eexists; repeat split; reflexivity.
Qed.
End PresenceChecks.

(** C1, as amended: with the credential configured, a request that lacks a
    required parameter or field (blobName for blob POST and DELETE; userId,
    name or email in the body of a table POST; userId in the body of a table
    PUT; userId for table DELETE; the body of a POST or PUT being a JSON
    value other than null) is answered 400, and the only SDK call issued is
    the creation attempt of the guard step, which comes first. *)
Theorem missing_required_is_400_after_guard :
  forall (ΣB ΣT : Type) (B : string -> string -> ContainerClient ΣB)
         (T : string -> string -> TableClient ΣT) (now : string)
         (cs : option string) (c : string),
    truthy cs = Some c ->
    (forall request w,
        method_is request "POST" \/ method_is request "DELETE" ->
        query_get request "blobName" = None ->
        exists w', blobStorageApi B now cs request w = (Returned missing_blobName, w')
                   /\ status missing_blobName = 400
                   /\ calls w' = calls w ++ [CallCreateIfNotExists "blob"])
    /\ (forall request body w,
        method_is request "POST" ->
        req_json request = Returned body ->
        nullish body = false ->
        get_prop body "userId" = JUndefined \/ get_prop body "name" = JUndefined
          \/ get_prop body "email" = JUndefined ->
        exists w', tableStorageApi T cs request w = (Returned missing_post_fields, w')
                   /\ status missing_post_fields = 400
                   /\ calls w' = calls w ++ [CallCreateTable])
    /\ (forall request body w,
        method_is request "PUT" ->
        req_json request = Returned body ->
        nullish body = false ->
        get_prop body "userId" = JUndefined ->
        exists w', tableStorageApi T cs request w = (Returned missing_put_field, w')
                   /\ status missing_put_field = 400
                   /\ calls w' = calls w ++ [CallCreateTable])
    /\ (forall request w,
        method_is request "DELETE" ->
        query_get request "userId" = None ->
        exists w', tableStorageApi T cs request w = (Returned missing_userId, w')
                   /\ status missing_userId = 400
                   /\ calls w' = calls w ++ [CallCreateTable]).
Proof.
  intros * Hc. repeat split.
  - intros request w Hm Hq.
    destruct (blob_falsy_name B now cs c Hc request w Hm) as (w' & E & _ & K);
      [now rewrite Hq | eauto].
  - intros request body w Hm Hj Hn Hf.
    destruct (table_post_falsy_field T cs c Hc request body w Hm Hj Hn) as (w' & E & _ & K);
      [| eauto].
    destruct Hf as [-> | [-> | ->]]; cbn [falsy]; rewrite ?orb_true_r; reflexivity.
  - intros request body w Hm Hj Hn Hf.
    destruct (table_put_falsy_userId T cs c Hc request body w Hm Hj Hn) as (w' & E & _ & K);
      [now rewrite Hf | eauto].
  - intros request w Hm Hq.
    destruct (table_delete_falsy_userId T cs c Hc request w Hm) as (w' & E & _ & K);
      [now rewrite Hq | eauto].
Qed.

Lemma missing_required_is_400_after_guard_witness :
  (exists w', blobStorageApi memory_blobs "2024-01-01T00:00:00.000Z" conn
                (a_request "DELETE" [] (Returned JNull)) (start MemoryContainer.empty)
              = (Returned missing_blobName, w')
              /\ status missing_blobName = 400
              /\ calls w' = [] ++ [CallCreateIfNotExists "blob"])
  /\ (exists w', tableStorageApi memory_table conn
                   (a_request "POST" [] (Returned nameless_user)) (start MemoryTable.empty)
                 = (Returned missing_post_fields, w')
                 /\ status missing_post_fields = 400
                 /\ calls w' = [] ++ [CallCreateTable]).
Proof.
  destruct (missing_required_is_400_after_guard _ _ memory_blobs memory_table
              "2024-01-01T00:00:00.000Z" conn "UseDevelopmentStorage=true" eq_refl)
    as (Hblob & Hpost & _ & _).
  split.
  - apply (Hblob (a_request "DELETE" [] (Returned JNull)) (start MemoryContainer.empty)).
    + right. reflexivity.
    + reflexivity.
  - apply (Hpost (a_request "POST" [] (Returned nameless_user)) nameless_user
             (start MemoryTable.empty)).
    + reflexivity.
    + reflexivity.
    + reflexivity.
    + left. reflexivity.
Defined.

(** C1 as written fails: a table POST without userId is answered 400, yet a
    store call was attempted before the presence check, and it created the
    table; and without the credential the same request is answered 500. *)
Lemma bad_request_after_store_call :
  let request := a_request "POST" [] (Returned nameless_user) in
  (let (r, w') := tableStorageApi memory_table conn request (start MemoryTable.empty) in
   r = Returned missing_post_fields
   /\ calls w' = [CallCreateTable]
   /\ calls w' <> []
   /\ MemoryTable.tableExists (store w') = true)
  /\ (let (r, w') := tableStorageApi memory_table None request (start MemoryTable.empty) in
      r = Returned not_configured /\ status not_configured <> 400).
Proof.
  vm_compute. repeat split; discriminate.
Qed.

(** C9: a required parameter or field supplied as the empty string is
    answered exactly as an absent one, with the same 400 response: blobName
    on blob POST and DELETE; userId, name or email in a table POST; userId in
    a table PUT; userId on table DELETE.  Each part compares a run on a
    request carrying the empty string with a run on a request lacking the
    value. *)
Theorem empty_string_counts_as_absent :
  forall (ΣB ΣT : Type) (B : string -> string -> ContainerClient ΣB)
         (T : string -> string -> TableClient ΣT) (now : string)
         (cs : option string) (c : string),
    truthy cs = Some c ->
    (forall r_empty r_absent w1 w2,
        (method_is r_empty "POST" /\ method_is r_absent "POST")
        \/ (method_is r_empty "DELETE" /\ method_is r_absent "DELETE") ->
        query_get r_empty "blobName" = Some EmptyString ->
        query_get r_absent "blobName" = None ->
        fst (blobStorageApi B now cs r_empty w1) = Returned missing_blobName
        /\ fst (blobStorageApi B now cs r_absent w2) = Returned missing_blobName
        /\ status missing_blobName = 400)
    /\ (forall r_empty r_absent b_empty b_absent w1 w2,
        method_is r_empty "POST" -> method_is r_absent "POST" ->
        req_json r_empty = Returned b_empty -> req_json r_absent = Returned b_absent ->
        get_prop b_empty "userId" = JStr EmptyString
          \/ get_prop b_empty "name" = JStr EmptyString
          \/ get_prop b_empty "email" = JStr EmptyString ->
        nullish b_absent = false ->
        get_prop b_absent "userId" = JUndefined
          \/ get_prop b_absent "name" = JUndefined
          \/ get_prop b_absent "email" = JUndefined ->
        fst (tableStorageApi T cs r_empty w1) = Returned missing_post_fields
        /\ fst (tableStorageApi T cs r_absent w2) = Returned missing_post_fields
        /\ status missing_post_fields = 400)
    /\ (forall r_empty r_absent b_empty b_absent w1 w2,
        method_is r_empty "PUT" -> method_is r_absent "PUT" ->
        req_json r_empty = Returned b_empty -> req_json r_absent = Returned b_absent ->
        get_prop b_empty "userId" = JStr EmptyString ->
        nullish b_absent = false ->
        get_prop b_absent "userId" = JUndefined ->
        fst (tableStorageApi T cs r_empty w1) = Returned missing_put_field
        /\ fst (tableStorageApi T cs r_absent w2) = Returned missing_put_field
        /\ status missing_put_field = 400)
    /\ (forall r_empty r_absent w1 w2,
        method_is r_empty "DELETE" -> method_is r_absent "DELETE" ->
        query_get r_empty "userId" = Some EmptyString ->
        query_get r_absent "userId" = None ->
        fst (tableStorageApi T cs r_empty w1) = Returned missing_userId
        /\ fst (tableStorageApi T cs r_absent w2) = Returned missing_userId
        /\ status missing_userId = 400).
Proof.
  intros * Hc.
  assert (Hobj : forall b k, get_prop b k = JStr EmptyString -> nullish b = false).
  { intros [] k; cbn; congruence. }
  repeat apply conj.
  - intros r1 r2 w1 w2 Hm H1 H2.
    assert (M1 : method_is r1 "POST" \/ method_is r1 "DELETE") by tauto.
    assert (M2 : method_is r2 "POST" \/ method_is r2 "DELETE") by tauto.
    destruct (blob_falsy_name B now cs c Hc r1 w1 M1) as (? & -> & _); [now rewrite H1 |].
    destruct (blob_falsy_name B now cs c Hc r2 w2 M2) as (? & -> & _); [now rewrite H2 |].
    auto.
  - intros r1 r2 b1 b2 w1 w2 M1 M2 J1 J2 H1 N2 H2.
    destruct (table_post_falsy_field T cs c Hc r1 b1 w1 M1 J1) as (? & -> & _).
    { destruct H1 as [H | [H | H]]; apply (Hobj b1 _ H). }
    { destruct H1 as [-> | [-> | ->]]; cbn [falsy String.eqb]; rewrite ?orb_true_r; reflexivity. }
    destruct (table_post_falsy_field T cs c Hc r2 b2 w2 M2 J2 N2) as (? & -> & _).
    { destruct H2 as [-> | [-> | ->]]; cbn [falsy]; rewrite ?orb_true_r; reflexivity. }
    auto.
  - intros r1 r2 b1 b2 w1 w2 M1 M2 J1 J2 H1 N2 H2.
    destruct (table_put_falsy_userId T cs c Hc r1 b1 w1 M1 J1 (Hobj b1 _ H1)) as (? & -> & _);
      [now rewrite H1 |].
    destruct (table_put_falsy_userId T cs c Hc r2 b2 w2 M2 J2 N2) as (? & -> & _);
      [now rewrite H2 |].
    auto.
  - intros r1 r2 w1 w2 M1 M2 H1 H2.
    destruct (table_delete_falsy_userId T cs c Hc r1 w1 M1) as (? & -> & _); [now rewrite H1 |].
    destruct (table_delete_falsy_userId T cs c Hc r2 w2 M2) as (? & -> & _); [now rewrite H2 |].
    auto.
Qed.

Lemma empty_string_counts_as_absent_witness :
  (fst (blobStorageApi memory_blobs "2024-01-01T00:00:00.000Z" conn
          (a_request "POST" [("blobName", EmptyString)] (Returned JNull))
          (start MemoryContainer.empty)) = Returned missing_blobName
   /\ fst (blobStorageApi memory_blobs "2024-01-01T00:00:00.000Z" conn
             (a_request "POST" [] (Returned JNull))
             (start MemoryContainer.empty)) = Returned missing_blobName
   /\ status missing_blobName = 400)
  /\ (fst (tableStorageApi memory_table conn
             (a_request "PUT" [] (Returned blank_userId)) (start MemoryTable.empty))
      = Returned missing_put_field
      /\ fst (tableStorageApi memory_table conn
                (a_request "PUT" [] (Returned nameless_user)) (start MemoryTable.empty))
         = Returned missing_put_field
      /\ status missing_put_field = 400).
Proof.
  destruct (empty_string_counts_as_absent _ _ memory_blobs memory_table
              "2024-01-01T00:00:00.000Z" conn "UseDevelopmentStorage=true" eq_refl)
    as (Hblob & _ & Hput & _).
  split.
  - apply Hblob.
    + left. split; reflexivity.
    + reflexivity.
    + reflexivity.
  - apply (Hput _ _ blank_userId nameless_user); reflexivity.
Defined.

(** ** Translation of store errors *)

Lemma status_is_spec (e : JsError) (code : Z) :
  status_is e code = true <-> statusCode e = Some code.
Proof.
  unfold status_is. destruct (statusCode e) as [z|].
  - rewrite Z.eqb_eq. split; congruence.
  - split; discriminate.
Qed.

Lemma not_found_or_500_intro (not_found : HttpResponseInit) (e : JsError) :
  status not_found = 404 ->
  not_found_or_500 not_found e
    (Returned (if status_is e 404 then not_found else internal_error e)).
Proof.
  intros Hs. split; intros H.
  - apply status_is_spec in H. rewrite H. auto.
  - destruct (status_is e 404) eqn:E; [apply status_is_spec in E; contradiction | auto].
Qed.

Section ErrorTranslation.
Context {ΣB ΣT : Type}.
Variable B : string -> string -> ContainerClient ΣB.
Variable T : string -> string -> TableClient ΣT.
Variable now : string.
Variables (cs : option string) (c : string).
Hypothesis configured : truthy cs = Some c.

Lemma blob_get_error (request : HttpRequest) (name : string) (w : World ΣB) (e : JsError) :
  method_is request "GET" ->
  truthy (query_get request "blobName") = Some name ->
  download_fails (B c "documents"%string) name
    (ensured_container (B c "documents"%string) (store w)) e ->
  fst (blobStorageApi B now cs request w)
  = Returned (if status_is e 404 then blob_not_found else internal_error e).
Proof.
  intros Hm Hq Hf. destruct w as [s cl lg]. revert Hm Hf. unfold download_fails.
  unfold_api. intros -> Hf. rewrite configured, Hq. js_simpl.
  destruct (createIfNotExists _ _ _) as [[e0|[]] s1] eqn:Hg; js_simpl; js_simpl in Hf;
    (destruct Hf as [(s' & Hd) | [(s' & read & Hd) | (s' & read & s'' & Hd & Hp)]];
     rewrite Hd; js_simpl; cbn [readableStreamBody failure yielded]; js_simpl;
     try rewrite Hp; js_simpl;
     destruct (status_is e 404); reflexivity).
Qed.

Lemma blob_delete_error (request : HttpRequest) (name : string) (w : World ΣB)
      (e : JsError) (s2 : ΣB) :
  method_is request "DELETE" ->
  truthy (query_get request "blobName") = Some name ->
  deleteBlob (B c "documents"%string) name "include"
    (ensured_container (B c "documents"%string) (store w)) = (Threw e, s2) ->
  fst (blobStorageApi B now cs request w)
  = Returned (if status_is e 404 then blob_not_found else internal_error e).
Proof.
  intros Hm Hq Hf. destruct w as [s cl lg]. revert Hm Hf.
  unfold_api. intros -> Hf. rewrite configured, Hq. js_simpl.
  destruct (createIfNotExists _ _ _) as [[e0|[]] s1] eqn:Hg; js_simpl; js_simpl in Hf;
    rewrite Hf; js_simpl; destruct (status_is e 404); reflexivity.
Qed.

Lemma table_get_error (request : HttpRequest) (userId : string) (w : World ΣT)
      (e : JsError) (s2 : ΣT) :
  method_is request "GET" ->
  truthy (query_get request "userId") = Some userId ->
  getEntity (T c "users"%string) (or_else (query_get request "department") "default") userId
    (ensured_table (T c "users"%string) (store w)) = (Threw e, s2) ->
  fst (tableStorageApi T cs request w)
  = Returned (if status_is e 404 then user_not_found else internal_error e).
Proof.
  intros Hm Hq Hf. destruct w as [s cl lg]. revert Hm Hf.
  unfold_api. intros -> Hf. rewrite configured, Hq. js_simpl.
  destruct (createTable _ _) as [[e0|[]] s1] eqn:Hg; js_simpl; js_simpl in Hf;
    rewrite Hf; js_simpl; destruct (status_is e 404); reflexivity.
Qed.

Lemma table_delete_error (request : HttpRequest) (userId : string) (w : World ΣT)
      (e : JsError) (s2 : ΣT) :
  method_is request "DELETE" ->
  truthy (query_get request "userId") = Some userId ->
  deleteEntity (T c "users"%string) (or_else (query_get request "department") "default") userId
    (ensured_table (T c "users"%string) (store w)) = (Threw e, s2) ->
  fst (tableStorageApi T cs request w)
  = Returned (if status_is e 404 then user_not_found else internal_error e).
Proof.
  intros Hm Hq Hf. destruct w as [s cl lg]. revert Hm Hf.
  unfold_api. intros -> Hf. rewrite configured, Hq. js_simpl.
  destruct (createTable _ _) as [[e0|[]] s1] eqn:Hg; js_simpl; js_simpl in Hf;
    rewrite Hf; js_simpl; destruct (status_is e 404); reflexivity.
Qed.
End ErrorTranslation.

(** C4: on a blob GET with a blobName, a blob DELETE, a table GET with a
    userId and a table DELETE, a store call that fails with status code 404
    is answered 404 with an error body; a store call that fails with any
    other error is not answered 404: the error reaches the outermost catch
    and is answered 500 with the message of the error. *)
Theorem store_not_found_is_404_else_500 :
  forall (ΣB ΣT : Type) (B : string -> string -> ContainerClient ΣB)
         (T : string -> string -> TableClient ΣT) (now : string)
         (cs : option string) (c : string) (e : JsError),
    truthy cs = Some c ->
    (forall request name w,
        method_is request "GET" ->
        truthy (query_get request "blobName") = Some name ->
        download_fails (B c "documents"%string) name
          (ensured_container (B c "documents"%string) (store w)) e ->
        not_found_or_500 blob_not_found e (fst (blobStorageApi B now cs request w)))
    /\ (forall request name w s2,
        method_is request "DELETE" ->
        truthy (query_get request "blobName") = Some name ->
        deleteBlob (B c "documents"%string) name "include"
          (ensured_container (B c "documents"%string) (store w)) = (Threw e, s2) ->
        not_found_or_500 blob_not_found e (fst (blobStorageApi B now cs request w)))
    /\ (forall request userId w s2,
        method_is request "GET" ->
        truthy (query_get request "userId") = Some userId ->
        getEntity (T c "users"%string)
          (or_else (query_get request "department") "default") userId
          (ensured_table (T c "users"%string) (store w)) = (Threw e, s2) ->
        not_found_or_500 user_not_found e (fst (tableStorageApi T cs request w)))
    /\ (forall request userId w s2,
        method_is request "DELETE" ->
        truthy (query_get request "userId") = Some userId ->
        deleteEntity (T c "users"%string)
          (or_else (query_get request "department") "default") userId
          (ensured_table (T c "users"%string) (store w)) = (Threw e, s2) ->
        not_found_or_500 user_not_found e (fst (tableStorageApi T cs request w))).
Proof.
  intros * Hc. repeat apply conj; intros.
  - erewrite blob_get_error by eassumption. now apply not_found_or_500_intro.
  - erewrite blob_delete_error by eassumption. now apply not_found_or_500_intro.
  - erewrite table_get_error by eassumption. now apply not_found_or_500_intro.
  - erewrite table_delete_error by eassumption. now apply not_found_or_500_intro.
Qed.

Lemma store_not_found_is_404_else_500_witness :
  not_found_or_500 blob_not_found MemoryContainer.blob_not_found
    (fst (blobStorageApi memory_blobs "2024-01-01T00:00:00.000Z" conn
            (a_request "GET" [("blobName", "nope.txt")] (Returned JNull))
            (start MemoryContainer.empty)))
  /\ not_found_or_500 blob_not_found MemoryContainer.blob_not_found
       (fst (blobStorageApi memory_blobs "2024-01-01T00:00:00.000Z" conn
               (a_request "DELETE" [("blobName", "nope.txt")] (Returned JNull))
               (start MemoryContainer.empty)))
  /\ not_found_or_500 user_not_found MemoryTable.entity_not_found
       (fst (tableStorageApi memory_table conn
               (a_request "GET" [("userId", "u1")] (Returned JNull))
               (start MemoryTable.empty)))
  /\ not_found_or_500 user_not_found MemoryTable.entity_not_found
       (fst (tableStorageApi memory_table conn
               (a_request "DELETE" [("userId", "u1")] (Returned JNull))
               (start MemoryTable.empty))).
Proof.
  pose proof (store_not_found_is_404_else_500 _ _ memory_blobs memory_table
                "2024-01-01T00:00:00.000Z" conn "UseDevelopmentStorage=true") as H.
  destruct (H MemoryContainer.blob_not_found eq_refl) as (Hget & Hdel & _ & _).
  destruct (H MemoryTable.entity_not_found eq_refl) as (_ & _ & Tget & Tdel).
  split; [| split; [| split]].
  - apply (Hget _ "nope.txt"%string); [reflexivity | reflexivity |].
    left. eexists. reflexivity.
  - eapply (Hdel _ "nope.txt"%string); reflexivity.
  - eapply (Tget _ "u1"%string); reflexivity.
  - eapply (Tdel _ "u1"%string); reflexivity.
Defined.

(** ** Creating and replacing records *)

Section Records.
Context {Σ : Type}.
Variable T : string -> string -> TableClient Σ.
Variables (cs : option string) (c : string).
Hypothesis configured : truthy cs = Some c.

(** A POST that passes the presence check issues one create, and answers by
    its outcome. *)
Lemma table_post_creates (request : HttpRequest) (body : jsval) (w : World Σ)
      (o : Outcome unit) (s2 : Σ) :
  method_is request "POST" ->
  req_json request = Returned body ->
  falsy (get_prop body "userId") || falsy (get_prop body "name")
    || falsy (get_prop body "email") = false ->
  createEntity (T c "users"%string) (record_of body)
    (ensured_table (T c "users"%string) (store w)) = (o, s2) ->
  exists w',
    tableStorageApi T cs request w
    = (Returned match o with
                | Returned _ => created (record_of body)
                | Threw e => internal_error e
                end, w')
    /\ store w' = s2
    /\ calls w' = calls w ++ [CallCreateTable; CallCreateEntity (record_of body)].
Proof.
  intros Hm Hj Hf Hc. destruct w as [s cl lg]. revert Hm Hc.
  unfold record_of. unfold_api. intros -> Hc. rewrite configured, Hj.
  destruct body; try discriminate Hf.
  destruct (createTable _ _) as [[e0|[]] s1] eqn:Hg; js_simpl; js_simpl in Hc;
    rewrite Hf; js_simpl; rewrite Hc; js_simpl; destruct o; js_simpl;
    eexists; rewrite <- app_assoc; repeat split; reflexivity.
Qed.

(** A PUT with a truthy userId issues one upsert in mode Replace, and
    answers by its outcome. *)
Lemma table_put_upserts (request : HttpRequest) (body : jsval) (w : World Σ)
      (o : Outcome unit) (s2 : Σ) :
  method_is request "PUT" ->
  req_json request = Returned body ->
  falsy (get_prop body "userId") = false ->
  upsertEntity (T c "users"%string) (record_of body) "Replace"
    (ensured_table (T c "users"%string) (store w)) = (o, s2) ->
  exists w',
    tableStorageApi T cs request w
    = (Returned match o with
                | Returned _ => updated (record_of body)
                | Threw e => internal_error e
                end, w')
    /\ store w' = s2
    /\ calls w' = calls w ++ [CallCreateTable; CallUpsertEntity (record_of body) "Replace"].
Proof.
  intros Hm Hj Hf Hc. destruct w as [s cl lg]. revert Hm Hc.
  unfold record_of. unfold_api. intros -> Hc. rewrite configured, Hj.
  destruct body; try discriminate Hf.
  destruct (createTable _ _) as [[e0|[]] s1] eqn:Hg; js_simpl; js_simpl in Hc;
    rewrite Hf; js_simpl; rewrite Hc; js_simpl; destruct o; js_simpl;
    eexists; rewrite <- app_assoc; repeat split; reflexivity.
Qed.
End Records.

(** C3: a table POST with body [{userId: "u1", name: "A", email: "a@x.com"}],
    department and age left out, whose create succeeds is answered 201, and
    the record created and returned is exactly [{partitionKey: "default",
    rowKey: "u1", name: "A", email: "a@x.com", age: 0}].  In general the
    partition key of the record is "default" when department is absent and
    its age is 0 when age is absent. *)
Theorem post_defaults_department_and_age :
  forall (Σ : Type) (T : string -> string -> TableClient Σ)
         (cs : option string) (c : string) (request : HttpRequest) (payload : jsval)
         (w : World Σ) (s2 : Σ),
    truthy cs = Some c ->
    method_is request "POST" ->
    req_json request = Returned payload ->
    get_prop payload "userId" = JStr "u1" ->
    get_prop payload "name" = JStr "A" ->
    get_prop payload "email" = JStr "a@x.com" ->
    get_prop payload "department" = JUndefined ->
    get_prop payload "age" = JUndefined ->
    createEntity (T c "users"%string) alice (ensured_table (T c "users"%string) (store w))
      = (Returned tt, s2) ->
    (exists w',
        tableStorageApi T cs request w = (Returned (created alice), w')
        /\ status (created alice) = 201
        /\ calls w' = calls w ++ [CallCreateTable; CallCreateEntity alice]
        /\ store w' = s2)
    /\ (forall b, get_prop b "department" = JUndefined ->
                  get_prop (record_of b) "partitionKey" = JStr "default")
    /\ (forall b, get_prop b "age" = JUndefined ->
                  get_prop (record_of b) "age" = JNum 0).
Proof.
  intros * Hc Hm Hj Hu Hn He Hd Ha Hcreate.
  assert (R : record_of payload = alice).
  { unfold record_of. rewrite Hu, Hn, He, Hd, Ha. reflexivity. }
  split; [| split].
  - destruct (table_post_creates T cs c Hc request payload w (Returned tt) s2 Hm Hj)
      as (w' & E & S & K).
    + rewrite Hu, Hn, He. reflexivity.
    + now rewrite R.
    + rewrite R in E, K. eauto.
  - intros b H. unfold record_of. rewrite H. reflexivity.
  - intros b H. unfold record_of. rewrite H. reflexivity.
Qed.

Lemma post_defaults_department_and_age_witness :
  (exists w',
      tableStorageApi memory_table conn (a_request "POST" [] (Returned alice_body))
        (start MemoryTable.empty)
      = (Returned (created alice), w')
      /\ status (created alice) = 201
      /\ calls w' = [] ++ [CallCreateTable; CallCreateEntity alice]
      /\ store w' = table_with ("default"%string, "u1"%string) alice)
  /\ (forall b, get_prop b "department" = JUndefined ->
                get_prop (record_of b) "partitionKey" = JStr "default")
  /\ (forall b, get_prop b "age" = JUndefined ->
                get_prop (record_of b) "age" = JNum 0).
Proof.
  apply (post_defaults_department_and_age _ memory_table conn "UseDevelopmentStorage=true"
           (a_request "POST" [] (Returned alice_body)) alice_body
           (start MemoryTable.empty));
    reflexivity.
Defined.

(** The guard step leaves the in-memory table in existence with its rows. *)
Lemma memory_table_ensured (st : MemoryTable.state) :
  MemoryTable.tableExists (ensured_table MemoryTable.client st) = true
  /\ MemoryTable.rows (ensured_table MemoryTable.client st) = MemoryTable.rows st.
Proof.
  unfold ensured_table. cbn. destruct (MemoryTable.tableExists st) eqn:E; cbn; auto.
Qed.

(** C5: a table POST whose create fails, as it does when the key is taken, is
    not answered by a case of its own: whatever the status code of the error,
    409 included, the error reaches the outermost catch and the answer is
    500 with the message of the error as details.  On the in-memory table a
    POST for a key that holds a row is answered so, with the message of the
    conflict, and the row stays as it was. *)
Theorem failed_create_is_500 :
  forall (Σ : Type) (T : string -> string -> TableClient Σ)
         (cs : option string) (c : string) (request : HttpRequest) (payload : jsval),
    truthy cs = Some c ->
    method_is request "POST" ->
    req_json request = Returned payload ->
    falsy (get_prop payload "userId") || falsy (get_prop payload "name")
      || falsy (get_prop payload "email") = false ->
    (forall (w : World Σ) (e : JsError) (s2 : Σ),
        createEntity (T c "users"%string) (record_of payload)
          (ensured_table (T c "users"%string) (store w)) = (Threw e, s2) ->
        exists resp w',
          tableStorageApi T cs request w = (Returned resp, w')
          /\ status resp = 500
          /\ status resp <> 409
          /\ body resp = BodyJson (JObj [("error", JStr "Internal server error");
                                         ("details", JStr (message e))])
          /\ calls w' = calls w ++ [CallCreateTable; CallCreateEntity (record_of payload)])
    /\ (forall (st : MemoryTable.state) (k : string * string) (old : jsval),
           MemoryTable.key_of (record_of payload) = Some k ->
           MemoryTable.rows st !! k = Some old ->
           exists w',
             tableStorageApi memory_table cs request (start st)
             = (Returned (internal_error MemoryTable.entity_exists), w')
             /\ statusCode MemoryTable.entity_exists = Some 409
             /\ status (internal_error MemoryTable.entity_exists) = 500
             /\ MemoryTable.rows (store w') !! k = Some old).
Proof.
  intros * Hc Hm Hj Hf. split.
  - intros w e s2 Hcreate.
    destruct (table_post_creates T cs c Hc request payload w (Threw e) s2 Hm Hj Hf Hcreate)
      as (w' & E & _ & K).
    exists (internal_error e), w'. cbn. repeat split; auto.
  - intros st k old Hk Hold.
    destruct (memory_table_ensured st) as [Hex Hrows].
    assert (Hcreate :
              createEntity (memory_table c "users"%string) (record_of payload)
                (ensured_table (memory_table c "users"%string) (store (start st)))
              = (Threw MemoryTable.entity_exists, ensured_table MemoryTable.client st)).
    { change (ensured_table (memory_table c "users"%string) (store (start st)))
        with (ensured_table MemoryTable.client st).
      rewrite <- Hrows in Hold.
      generalize dependent (ensured_table MemoryTable.client st). intros s1 Hold Hex _.
      cbn [memory_table createEntity MemoryTable.client].
      unfold MemoryTable.in_table. rewrite Hex, Hk. cbv beta iota. rewrite Hold.
      reflexivity. }
    destruct (table_post_creates memory_table cs c Hc request payload (start st) _ _
                Hm Hj Hf Hcreate) as (w' & E & S & _).
    exists w'. split; [exact E |]. rewrite S, Hrows. auto.
Qed.

Lemma failed_create_is_500_witness :
  (forall (w : World MemoryTable.state) (e : JsError) (s2 : MemoryTable.state),
      createEntity (memory_table "UseDevelopmentStorage=true"%string "users"%string)
        (record_of alice_body)
        (ensured_table (memory_table "UseDevelopmentStorage=true"%string "users"%string)
           (store w)) = (Threw e, s2) ->
      exists resp w',
        tableStorageApi memory_table conn (a_request "POST" [] (Returned alice_body)) w
        = (Returned resp, w')
        /\ status resp = 500
        /\ status resp <> 409
        /\ body resp = BodyJson (JObj [("error", JStr "Internal server error");
                                       ("details", JStr (message e))])
        /\ calls w' = calls w ++ [CallCreateTable; CallCreateEntity (record_of alice_body)])
  /\ (exists w',
         tableStorageApi memory_table conn (a_request "POST" [] (Returned alice_body))
           (start (table_with ("default"%string, "u1"%string) bob_old))
         = (Returned (internal_error MemoryTable.entity_exists), w')
         /\ statusCode MemoryTable.entity_exists = Some 409
         /\ status (internal_error MemoryTable.entity_exists) = 500
         /\ MemoryTable.rows (store w') !! ("default"%string, "u1"%string) = Some bob_old).
Proof.
  destruct (failed_create_is_500 _ memory_table conn "UseDevelopmentStorage=true"
              (a_request "POST" [] (Returned alice_body)) alice_body)
    as [Hgen Hmem]; try reflexivity.
  split; [exact Hgen |].
  apply (Hmem (table_with ("default"%string, "u1"%string) bob_old)); reflexivity.
Defined.

(** A property the record holds as [undefined] is not among those stored. *)
Lemma stored_record_omits (pk rk name email age : jsval) :
  (name = JUndefined ->
   get_prop (MemoryTable.stored (UserEntity pk rk name email age)) "name" = JUndefined)
  /\ (email = JUndefined ->
      get_prop (MemoryTable.stored (UserEntity pk rk name email age)) "email" = JUndefined).
Proof.
  unfold UserEntity, MemoryTable.stored. cbn [List.filter].
  split; intros ->;
    destruct (MemoryTable.defined (_, pk)), (MemoryTable.defined (_, rk)),
             (MemoryTable.defined (_, age));
    cbn [MemoryTable.defined snd];
    match goal with
    | |- context [MemoryTable.defined ?p] => destruct (MemoryTable.defined p)
    end; reflexivity.
Qed.

(** C8: a table PUT whose body carries a (truthy) userId and leaves out name
    or email is not answered 400.  The record is built with the missing
    attributes undefined and one upsert in mode Replace is issued with it;
    when that upsert returns, the answer is 200 with that record.  On the
    in-memory table the row under the key of the record is afterwards the
    record as sent, whatever was stored there before: a name or email that
    was left out is no longer in the row. *)
Theorem put_without_name_or_email_replaces :
  forall (Σ : Type) (T : string -> string -> TableClient Σ)
         (cs : option string) (c : string) (request : HttpRequest) (payload : jsval),
    truthy cs = Some c ->
    method_is request "PUT" ->
    req_json request = Returned payload ->
    falsy (get_prop payload "userId") = false ->
    get_prop payload "name" = JUndefined \/ get_prop payload "email" = JUndefined ->
    (forall w : World Σ,
        exists resp w',
          tableStorageApi T cs request w = (Returned resp, w')
          /\ status resp <> 400
          /\ calls w' = calls w ++ [CallCreateTable;
                                    CallUpsertEntity (record_of payload) "Replace"]
          /\ get_prop (record_of payload) "name" = get_prop payload "name"
          /\ get_prop (record_of payload) "email" = get_prop payload "email"
          /\ (forall s2,
                 upsertEntity (T c "users"%string) (record_of payload) "Replace"
                   (ensured_table (T c "users"%string) (store w)) = (Returned tt, s2) ->
                 resp = updated (record_of payload) /\ status resp = 200 /\ store w' = s2))
    /\ (forall (st : MemoryTable.state) (k : string * string),
           MemoryTable.key_of (record_of payload) = Some k ->
           let after := store (snd (tableStorageApi memory_table cs request (start st))) in
           let row := MemoryTable.stored (record_of payload) in
           MemoryTable.rows after !! k = Some row
           /\ (get_prop payload "name" = JUndefined -> get_prop row "name" = JUndefined)
           /\ (get_prop payload "email" = JUndefined -> get_prop row "email" = JUndefined)).
Proof.
  intros * Hc Hm Hj Hu Hmiss. split.
  - intros w.
    destruct (upsertEntity (T c "users"%string) (record_of payload) "Replace"
                (ensured_table (T c "users"%string) (store w))) as [o s2] eqn:Hup.
    destruct (table_put_upserts T cs c Hc request payload w o s2 Hm Hj Hu Hup)
      as (w' & E & S & K).
    eexists _, w'. split; [exact E |].
    split; [destruct o; cbn; lia |].
    split; [exact K |].
    split; [reflexivity |]. split; [reflexivity |].
    intros s2' [= -> ->]. auto.
  - intros st k Hk after row.
    destruct (memory_table_ensured st) as [Hex Hrows].
    assert (Hup : upsertEntity (memory_table c "users"%string) (record_of payload) "Replace"
                    (ensured_table (memory_table c "users"%string) (store (start st)))
                  = (Returned tt,
                     MemoryTable.put (ensured_table MemoryTable.client st) k row)).
    { change (ensured_table (memory_table c "users"%string) (store (start st)))
        with (ensured_table MemoryTable.client st).
      generalize dependent (ensured_table MemoryTable.client st). intros s1 Hex _.
      cbn [memory_table upsertEntity MemoryTable.client].
      unfold MemoryTable.in_table. rewrite Hex, Hk. reflexivity. }
    destruct (table_put_upserts memory_table cs c Hc request payload (start st) _ _
                Hm Hj Hu Hup) as (w' & E & S & _).
    subst after. rewrite E. cbn [snd]. rewrite S. cbn [MemoryTable.put MemoryTable.rows].
    split; [apply lookup_insert_eq |].
    subst row. unfold record_of.
    split; intros H; rewrite H; apply stored_record_omits; reflexivity.
Qed.

Lemma put_without_name_or_email_replaces_witness :
  (forall w : World MemoryTable.state,
      exists resp w',
        tableStorageApi memory_table conn (a_request "PUT" [] (Returned bare_put)) w
        = (Returned resp, w')
        /\ status resp <> 400
        /\ calls w' = calls w ++ [CallCreateTable;
                                  CallUpsertEntity (record_of bare_put) "Replace"]
        /\ get_prop (record_of bare_put) "name" = get_prop bare_put "name"
        /\ get_prop (record_of bare_put) "email" = get_prop bare_put "email"
        /\ (forall s2,
               upsertEntity (memory_table "UseDevelopmentStorage=true"%string "users"%string)
                 (record_of bare_put) "Replace"
                 (ensured_table (memory_table "UseDevelopmentStorage=true"%string
                                   "users"%string) (store w)) = (Returned tt, s2) ->
               resp = updated (record_of bare_put) /\ status resp = 200 /\ store w' = s2))
  /\ (let after :=
        store (snd (tableStorageApi memory_table conn (a_request "PUT" [] (Returned bare_put))
                      (start (table_with ("default"%string, "u1"%string) bob_old)))) in
      let row := MemoryTable.stored (record_of bare_put) in
      MemoryTable.rows after !! ("default"%string, "u1"%string) = Some row
      /\ (get_prop bare_put "name" = JUndefined -> get_prop row "name" = JUndefined)
      /\ (get_prop bare_put "email" = JUndefined -> get_prop row "email" = JUndefined)).
Proof.
  destruct (put_without_name_or_email_replaces _ memory_table conn
              "UseDevelopmentStorage=true" (a_request "PUT" [] (Returned bare_put)) bare_put)
    as [Hgen Hmem]; try reflexivity.
  - left. reflexivity.
  - split; [exact Hgen |].
    apply (Hmem (table_with ("default"%string, "u1"%string) bob_old)). reflexivity.
Defined.

(** ** Response bodies *)

(** C2, as amended: either endpoint always returns a response, and its body
    is JSON with an [error] or a [message] field unless the request is a GET
    answered 200.  The body of such an answer is, on the blob endpoint, the
    bytes of the blob or the listing [{blobs, count}]; on the table endpoint,
    the record as the store returned it or the listing [{users, count}]. *)
Theorem bodies_carry_error_or_message_except_reads :
  forall (ΣB ΣT : Type) (B : string -> string -> ContainerClient ΣB)
         (T : string -> string -> TableClient ΣT) (now : string)
         (cs : option string) (request : HttpRequest) (wb : World ΣB) (wt : World ΣT),
    (exists resp w',
        blobStorageApi B now cs request wb = (Returned resp, w')
        /\ (has_error_or_message (body resp) = true
            \/ (status resp = 200 /\ method_is request "GET"
                /\ (is_bytes (body resp) \/ is_blob_listing (body resp)))))
    /\ (exists resp w',
        tableStorageApi T cs request wt = (Returned resp, w')
        /\ (has_error_or_message (body resp) = true
            \/ (status resp = 200 /\ method_is request "GET"
                /\ ((exists c userId s s' entity,
                        truthy cs = Some c
                        /\ truthy (query_get request "userId") = Some userId
                        /\ getEntity (T c "users"%string)
                             (or_else (query_get request "department") "default") userId s
                           = (Returned entity, s')
                        /\ body resp = BodyJson entity)
                    \/ is_user_listing (body resp))))).
Proof.
  intros. split.
  - destruct wb as [s cl lg]. unfold_api. case_split.
    all: eexists _, _; (split; [reflexivity |]).
    all: cbn [body status json_response].
    all: try (left; reflexivity).
    all: right; split; [reflexivity |]; split; [now apply String.eqb_eq |].
    all: first [left; eexists; reflexivity
               | right; eexists; reflexivity].
  - destruct wt as [s cl lg]. unfold_api. case_split.
    all: eexists _, _; (split; [reflexivity |]).
    all: cbn [body status json_response].
    all: try (left; reflexivity).
    all: right; split; [reflexivity |]; split; [now apply String.eqb_eq |].
    all: try (right; eexists; reflexivity).
    all: left; do 5 eexists; repeat split; eassumption.
Qed.

(** C2 as written fails on each JSON body of a successful read: the blob
    listing, the record listing and a record fetched by key are JSON, and
    hold neither an [error] nor a [message] field. *)
Lemma read_bodies_lack_error_and_message :
  (let (r, _) := blobStorageApi memory_blobs "2024-01-01T00:00:00.000Z" conn
                   (a_request "GET" [] (Returned JNull)) (start MemoryContainer.empty) in
   exists resp, r = Returned resp
                /\ body resp = BodyJson (JObj [("blobs", JArr []); ("count", JNum 0)])
                /\ has_error_or_message (body resp) = false)
  /\ (let (r, _) := tableStorageApi memory_table conn
                      (a_request "GET" [] (Returned JNull)) (start MemoryTable.empty) in
      exists resp, r = Returned resp
                   /\ body resp = BodyJson (JObj [("users", JArr []); ("count", JNum 0)])
                   /\ has_error_or_message (body resp) = false)
  /\ (let (r, _) := tableStorageApi memory_table conn
                      (a_request "GET" [("userId", "u1")] (Returned JNull))
                      (start (table_with ("default"%string, "u1"%string) alice)) in
      exists resp, r = Returned resp
                   /\ body resp = BodyJson alice
                   /\ has_error_or_message (body resp) = false).
Proof.
  vm_compute. repeat split; eexists; repeat split.
Qed.

(** ** The creation attempt of the guard step *)

(** C7: run a request twice against the same store and the same client,
    the creation attempt of the guard step answering as [o1] says in one run
    and as [o2] says in the other (returning in one, throwing in the other,
    say), and leaving the store as the attempt of the client leaves it.
    Both runs give the same response, issue the same SDK calls and leave the
    same store: the outcome of the creation attempt reaches the log only. *)
Theorem creation_outcome_never_reaches_caller :
  forall (ΣB ΣT : Type) (B : string -> string -> ContainerClient ΣB)
         (T : string -> string -> TableClient ΣT) (now : string)
         (cs : option string) (request : HttpRequest) (wb : World ΣB) (wt : World ΣT)
         (o1 o2 : string -> ΣB -> Outcome unit) (p1 p2 : ΣT -> Outcome unit),
    let blob o :=
      blobStorageApi (fun c n => container_answering o (B c n)) now cs request wb in
    let table p :=
      tableStorageApi (fun c n => table_answering p (T c n)) cs request wt in
    (fst (blob o1) = fst (blob o2)
     /\ store (snd (blob o1)) = store (snd (blob o2))
     /\ calls (snd (blob o1)) = calls (snd (blob o2)))
    /\ (fst (table p1) = fst (table p2)
        /\ store (snd (table p1)) = store (snd (table p2))
        /\ calls (snd (table p1)) = calls (snd (table p2))).
Proof.
  intros. subst blob table. split.
  - destruct wb as [s cl lg]. unfold_api. js_simpl.
    destruct (truthy cs) as [c|]; [| repeat split].
    js_simpl. destruct (o1 "blob"%string s), (o2 "blob"%string s);
      case_split; repeat split.
  - destruct wt as [s cl lg]. unfold_api. js_simpl.
    destruct (truthy cs) as [c|]; [| repeat split].
    js_simpl. destruct (p1 s), (p2 s); case_split; repeat split.
Qed.

(** * Further properties of the handlers *)

Section Runs.
Context {ΣB ΣT : Type}.
Variable B : string -> string -> ContainerClient ΣB.
Variable T : string -> string -> TableClient ΣT.
Variable now : string.
Variables (cs : option string) (c : string).
Hypothesis configured : truthy cs = Some c.

Lemma blob_download_runs (request : HttpRequest) (name : string) (w : World ΣB)
      (read : list (list Byte.byte)) (s2 : ΣB) (o : Outcome BlobProperties) (s3 : ΣB) :
  method_is request "GET" ->
  truthy (query_get request "blobName") = Some name ->
  download (B c "documents"%string) name
    (ensured_container (B c "documents"%string) (store w))
  = (Returned {| readableStreamBody := Some {| yielded := read; failure := None |} |}, s2) ->
  getProperties (B c "documents"%string) name s2 = (o, s3) ->
  exists w',
    blobStorageApi B now cs request w
    = (Returned match o with
                | Returned properties => downloaded properties (concat read)
                | Threw e => translated blob_not_found e
                end, w')
    /\ store w' = s3
    /\ calls w' = calls w ++ [CallCreateIfNotExists "blob"; CallDownload name;
                              CallGetProperties name].
Proof.
  intros Hm Hq Hd Hp. destruct w as [s cl lg]. revert Hm Hd.
  unfold translated. unfold_api. intros -> Hd. rewrite configured, Hq. js_simpl.
  destruct (createIfNotExists _ _ _) as [[e0|[]] s1] eqn:Hg; js_simpl; js_simpl in Hd;
    rewrite Hd; js_simpl; cbn [readableStreamBody failure yielded]; js_simpl;
    rewrite Hp; js_simpl; destruct o as [e|p]; js_simpl;
    try destruct (status_is e 404);
    eexists; rewrite <- !app_assoc; repeat split; reflexivity.
Qed.

Lemma blob_list_runs (request : HttpRequest) (w : World ΣB)
      (o : Outcome (list BlobItem)) (s2 : ΣB) :
  method_is request "GET" ->
  truthy (query_get request "blobName") = None ->
  listBlobsFlat (B c "documents"%string)
    (ensured_container (B c "documents"%string) (store w)) = (o, s2) ->
  exists w',
    blobStorageApi B now cs request w
    = (Returned match o with
                | Returned items => blob_listing items
                | Threw e => internal_error e
                end, w')
    /\ store w' = s2
    /\ calls w' = calls w ++ [CallCreateIfNotExists "blob"; CallListBlobsFlat].
Proof.
  intros Hm Hq Hl. destruct w as [s cl lg]. revert Hm Hl.
  unfold blob_listing. unfold_api. intros -> Hl. rewrite configured, Hq. js_simpl.
  destruct (createIfNotExists _ _ _) as [[e0|[]] s1] eqn:Hg; js_simpl; js_simpl in Hl;
    rewrite Hl; js_simpl; destruct o as [e|items]; js_simpl;
    rewrite ?length_map;
    eexists; rewrite <- !app_assoc; repeat split; reflexivity.
Qed.

Lemma blob_post_runs (request : HttpRequest) (name : string) (w : World ΣB)
      (o : Outcome UploadResponse) (s2 : ΣB) :
  method_is request "POST" ->
  truthy (query_get request "blobName") = Some name ->
  upload (B c "documents"%string) name (req_arrayBuffer request)
    (length (req_arrayBuffer request)) (upload_options request now)
    (ensured_container (B c "documents"%string) (store w)) = (o, s2) ->
  exists w',
    blobStorageApi B now cs request w
    = (Returned match o with
                | Returned r => uploaded (B c "documents"%string) name r
                | Threw e => internal_error e
                end, w')
    /\ store w' = s2
    /\ calls w' = calls w ++ [CallCreateIfNotExists "blob";
                              CallUpload name (req_arrayBuffer request)
                                (length (req_arrayBuffer request))
                                (upload_options request now)].
Proof.
  intros Hm Hq Hu. destruct w as [s cl lg]. revert Hm Hu.
  unfold uploaded, upload_options. unfold_api. intros -> Hu. rewrite configured, Hq. js_simpl.
  destruct (createIfNotExists _ _ _) as [[e0|[]] s1] eqn:Hg; js_simpl; js_simpl in Hu;
    rewrite Hu; js_simpl; destruct o as [e|r]; js_simpl;
    eexists; rewrite <- !app_assoc; repeat split; reflexivity.
Qed.

Lemma blob_delete_runs (request : HttpRequest) (name : string) (w : World ΣB)
      (o : Outcome DeleteResponse) (s2 : ΣB) :
  method_is request "DELETE" ->
  truthy (query_get request "blobName") = Some name ->
  deleteBlob (B c "documents"%string) name "include"
    (ensured_container (B c "documents"%string) (store w)) = (o, s2) ->
  exists w',
    blobStorageApi B now cs request w
    = (Returned match o with
                | Returned r => blob_deleted name r
                | Threw e => translated blob_not_found e
                end, w')
    /\ store w' = s2
    /\ calls w' = calls w ++ [CallCreateIfNotExists "blob"; CallDeleteBlob name "include"].
Proof.
  intros Hm Hq Hd. destruct w as [s cl lg]. revert Hm Hd.
  unfold translated, blob_deleted. unfold_api. intros -> Hd. rewrite configured, Hq. js_simpl.
  destruct (createIfNotExists _ _ _) as [[e0|[]] s1] eqn:Hg; js_simpl; js_simpl in Hd;
    rewrite Hd; js_simpl; destruct o as [e|r]; js_simpl;
    try destruct (status_is e 404);
    eexists; rewrite <- !app_assoc; repeat split; reflexivity.
Qed.

Lemma table_get_runs (request : HttpRequest) (userId : string) (w : World ΣT)
      (o : Outcome jsval) (s2 : ΣT) :
  method_is request "GET" ->
  truthy (query_get request "userId") = Some userId ->
  getEntity (T c "users"%string) (department_of request) userId
    (ensured_table (T c "users"%string) (store w)) = (o, s2) ->
  exists w',
    tableStorageApi T cs request w
    = (Returned match o with
                | Returned entity => fetched entity
                | Threw e => translated user_not_found e
                end, w')
    /\ store w' = s2
    /\ calls w' = calls w ++ [CallCreateTable; CallGetEntity (department_of request) userId].
Proof.
  intros Hm Hq Hd. destruct w as [s cl lg]. revert Hm Hd.
  unfold translated, fetched, department_of. unfold_api. intros -> Hd.
  rewrite configured, Hq. js_simpl.
  destruct (createTable _ _) as [[e0|[]] s1] eqn:Hg; js_simpl; js_simpl in Hd;
    rewrite Hd; js_simpl; destruct o as [e|r]; js_simpl;
    try destruct (status_is e 404);
    eexists; rewrite <- !app_assoc; repeat split; reflexivity.
Qed.

Lemma table_list_runs (request : HttpRequest) (w : World ΣT)
      (o : Outcome (list jsval)) (s2 : ΣT) :
  method_is request "GET" ->
  truthy (query_get request "userId") = None ->
  listEntities (T c "users"%string) (department_of request)
    (ensured_table (T c "users"%string) (store w)) = (o, s2) ->
  exists w',
    tableStorageApi T cs request w
    = (Returned match o with
                | Returned users => user_listing users
                | Threw e => internal_error e
                end, w')
    /\ store w' = s2
    /\ calls w' = calls w ++ [CallCreateTable; CallListEntities (department_of request)].
Proof.
  intros Hm Hq Hd. destruct w as [s cl lg]. revert Hm Hd.
  unfold user_listing, department_of. unfold_api. intros -> Hd.
  rewrite configured, Hq. js_simpl.
  destruct (createTable _ _) as [[e0|[]] s1] eqn:Hg; js_simpl; js_simpl in Hd;
    rewrite Hd; js_simpl; destruct o as [e|r]; js_simpl;
    eexists; rewrite <- !app_assoc; repeat split; reflexivity.
Qed.

Lemma table_delete_runs (request : HttpRequest) (userId : string) (w : World ΣT)
      (o : Outcome unit) (s2 : ΣT) :
  method_is request "DELETE" ->
  truthy (query_get request "userId") = Some userId ->
  deleteEntity (T c "users"%string) (department_of request) userId
    (ensured_table (T c "users"%string) (store w)) = (o, s2) ->
  exists w',
    tableStorageApi T cs request w
    = (Returned match o with
                | Returned _ => user_deleted
                | Threw e => translated user_not_found e
                end, w')
    /\ store w' = s2
    /\ calls w' = calls w ++ [CallCreateTable; CallDeleteEntity (department_of request) userId].
Proof.
  intros Hm Hq Hd. destruct w as [s cl lg]. revert Hm Hd.
  unfold translated, user_deleted, department_of. unfold_api. intros -> Hd.
  rewrite configured, Hq. js_simpl.
  destruct (createTable _ _) as [[e0|[]] s1] eqn:Hg; js_simpl; js_simpl in Hd;
    rewrite Hd; js_simpl; destruct o as [e|r]; js_simpl;
    try destruct (status_is e 404);
    eexists; rewrite <- !app_assoc; repeat split; reflexivity.
Qed.
End Runs.

(** ** Dispatch on the method *)

(** X1: with the credential configured, a request whose method in upper
    case is none of GET, POST, DELETE (blob endpoint) or none of GET, POST,
    PUT, DELETE (table endpoint) is answered 405; the creation attempt of
    the guard step has been issued all the same, and no other SDK call. *)
Theorem other_methods_are_405 :
  forall (ΣB ΣT : Type) (B : string -> string -> ContainerClient ΣB)
         (T : string -> string -> TableClient ΣT) (clock : string)
         (cs : option string) (c : string) (request : HttpRequest)
         (wb : World ΣB) (wt : World ΣT),
    truthy cs = Some c ->
    toUpperCase (req_method request) <> "GET"%string ->
    toUpperCase (req_method request) <> "POST"%string ->
    toUpperCase (req_method request) <> "DELETE"%string ->
    (exists w',
        blobStorageApi B clock cs request wb = (Returned method_not_allowed, w')
        /\ status method_not_allowed = 405
        /\ store w' = ensured_container (B c "documents"%string) (store wb)
        /\ calls w' = calls wb ++ [CallCreateIfNotExists "blob"])
    /\ (toUpperCase (req_method request) <> "PUT"%string ->
        exists w',
          tableStorageApi T cs request wt = (Returned method_not_allowed, w')
          /\ store w' = ensured_table (T c "users"%string) (store wt)
          /\ calls w' = calls wt ++ [CallCreateTable]).
Proof.
  intros ΣB ΣT B T clock cs c request wb wt Hc G P D.
  apply String.eqb_neq in G, P, D. split.
  - destruct wb as [s cl lg]. unfold_api. rewrite Hc, G, P, D.
    destruct (createIfNotExists _ _ _) as [[e|[]] s1] eqn:Hg; js_simpl;
      eexists; repeat split; reflexivity.
  - intros U. apply String.eqb_neq in U.
    destruct wt as [s cl lg]. unfold_api. rewrite Hc, G, P, U, D.
    destruct (createTable _ _) as [[e|[]] s1] eqn:Hg; js_simpl;
      eexists; repeat split; reflexivity.
Qed.

Lemma other_methods_are_405_witness :
  (exists w',
      blobStorageApi memory_blobs stamp conn (a_request "PUT" [] (Returned JNull))
        (start MemoryContainer.empty) = (Returned method_not_allowed, w')
      /\ status method_not_allowed = 405
      /\ store w' = ensured_container MemoryContainer.client MemoryContainer.empty
      /\ calls w' = [] ++ [CallCreateIfNotExists "blob"])
  /\ (exists w',
        tableStorageApi memory_table conn (a_request "PATCH" [] (Returned JNull))
          (start MemoryTable.empty) = (Returned method_not_allowed, w')
        /\ store w' = ensured_table MemoryTable.client MemoryTable.empty
        /\ calls w' = [] ++ [CallCreateTable]).
Proof.
  split.
  - apply (other_methods_are_405 _ _ memory_blobs memory_table stamp conn
             "UseDevelopmentStorage=true" (a_request "PUT" [] (Returned JNull))
             (start MemoryContainer.empty) (start MemoryTable.empty));
      [reflexivity | discriminate | discriminate | discriminate].
  - apply (other_methods_are_405 _ _ memory_blobs memory_table stamp conn
             "UseDevelopmentStorage=true" (a_request "PATCH" [] (Returned JNull))
             (start MemoryContainer.empty) (start MemoryTable.empty));
      [reflexivity | discriminate | discriminate | discriminate | discriminate].
Defined.

(** X2: the method is compared in upper case: a request is handled exactly
    as the same request with the method spelled in any other letter case. *)
Theorem dispatch_ignores_letter_case :
  forall (ΣB ΣT : Type) (B : string -> string -> ContainerClient ΣB)
         (T : string -> string -> TableClient ΣT) (clock : string)
         (cs : option string) (request : HttpRequest) (m : string)
         (wb : World ΣB) (wt : World ΣT),
    toUpperCase m = toUpperCase (req_method request) ->
    blobStorageApi B clock cs (with_method m request) wb = blobStorageApi B clock cs request wb
    /\ tableStorageApi T cs (with_method m request) wt = tableStorageApi T cs request wt.
Proof.
  intros ΣB ΣT B T clock cs [u m0 q h ab j] m wb wt H. cbn [req_method] in H.
  unfold with_method, blobStorageApi, tableStorageApi,
    BlobStorageApi.handleGetRequest, BlobStorageApi.handlePostRequest,
    BlobStorageApi.handleDeleteRequest,
    TableStorageApi.handleGetRequest, TableStorageApi.handlePostRequest,
    TableStorageApi.handlePutRequest, TableStorageApi.handleDeleteRequest,
    query_get, headers_get.
  cbn [req_url req_method req_query req_headers req_arrayBuffer req_json].
  rewrite H. split; reflexivity.
Qed.

Lemma dispatch_ignores_letter_case_witness :
  blobStorageApi memory_blobs stamp conn
    (with_method "dElEtE" (a_request "DELETE" [("blobName", "a.txt")] (Returned JNull)))
    (start one_blob)
  = blobStorageApi memory_blobs stamp conn
      (a_request "DELETE" [("blobName", "a.txt")] (Returned JNull)) (start one_blob)
  /\ tableStorageApi memory_table conn
       (with_method "dElEtE" (a_request "DELETE" [("blobName", "a.txt")] (Returned JNull)))
       (start MemoryTable.empty)
     = tableStorageApi memory_table conn
         (a_request "DELETE" [("blobName", "a.txt")] (Returned JNull))
         (start MemoryTable.empty).
Proof.
  apply (dispatch_ignores_letter_case _ _ memory_blobs memory_table stamp conn
           (a_request "DELETE" [("blobName", "a.txt")] (Returned JNull)) "dElEtE").
  reflexivity.
Defined.

(** X11: an empty credential counts as none: both endpoints answer 500 "not
    configured", leave the store as it is and issue no SDK call. *)
Theorem empty_credential_is_unconfigured :
  forall (ΣB ΣT : Type) (B : string -> string -> ContainerClient ΣB)
         (T : string -> string -> TableClient ΣT) (clock : string)
         (request : HttpRequest) (wb : World ΣB) (wt : World ΣT),
    (exists w', blobStorageApi B clock (Some EmptyString) request wb
                = (Returned not_configured, w')
                /\ store w' = store wb /\ calls w' = calls wb)
    /\ (exists w', tableStorageApi T (Some EmptyString) request wt
                   = (Returned not_configured, w')
                   /\ store w' = store wt /\ calls w' = calls wt).
Proof.
  intros. split; eexists; (split; [reflexivity | split; reflexivity]).
Qed.

(** ** Blob reads and writes *)

Lemma pretty_N_go_nonempty (x : N) (s : string) :
  s <> EmptyString -> pretty_N_go x s <> EmptyString.
Proof.
  revert s. induction (N.lt_wf_0 x) as [x _ IH]. intros s Hs.
  destruct (decide (x = 0%N)) as [-> | Hx].
  - now rewrite pretty_N_go_0.
  - rewrite pretty_N_go_step by lia. apply IH; [apply N.div_lt; lia | discriminate].
Qed.

(** The decimal text of a number is never empty, so it is never replaced by
    a default. *)
Lemma pretty_N_nonempty (x : N) : pretty x <> EmptyString.
Proof.
  unfold pretty, pretty_N. destruct (decide (x = 0%N)); [discriminate |].
  rewrite pretty_N_go_step by lia. apply pretty_N_go_nonempty. discriminate.
Qed.

Lemma or_else_truthy (s d : string) : s <> EmptyString -> or_else (Some s) d = s.
Proof.
  intros H. unfold or_else, truthy.
  destruct (String.eqb s EmptyString) eqn:E; [apply String.eqb_eq in E; contradiction | easy].
Qed.

Lemma or_else_nonempty (o : option string) (d : string) :
  d <> EmptyString -> or_else o d <> EmptyString.
Proof.
  intros Hd. unfold or_else, truthy. destruct o as [s|]; [| exact Hd].
  destruct (String.eqb s EmptyString) eqn:E; [exact Hd | now apply String.eqb_neq].
Qed.

(** X3: a blob GET with a blobName whose download and properties calls
    return is answered 200 with the chunks of the stream, in order, as body.
    Content-Type is the content type the store reports, or
    application/octet-stream when it reports none or an empty one;
    Content-Length is the decimal text of the length the store reports (not
    of the body read), or 0 when it reports none.  Three SDK calls are
    issued: the creation attempt, the download, the properties. *)
Theorem blob_download_answers_bytes :
  forall (Σ : Type) (B : string -> string -> ContainerClient Σ) (clock : string)
         (cs : option string) (c : string) (request : HttpRequest) (name : string)
         (w : World Σ) (read : list (list Byte.byte)) (s2 : Σ)
         (properties : BlobProperties) (s3 : Σ),
    truthy cs = Some c ->
    method_is request "GET" ->
    truthy (query_get request "blobName") = Some name ->
    download (B c "documents"%string) name
      (ensured_container (B c "documents"%string) (store w))
    = (Returned {| readableStreamBody := Some {| yielded := read; failure := None |} |}, s2) ->
    getProperties (B c "documents"%string) name s2 = (Returned properties, s3) ->
    exists resp w',
      blobStorageApi B clock cs request w = (Returned resp, w')
      /\ status resp = 200
      /\ body resp = BodyBuffer (concat read)
      /\ assoc "Content-Type" (headers resp)
         = Some match truthy (contentType properties) with
                | Some ct => ct
                | None => "application/octet-stream"%string
                end
      /\ assoc "Content-Length" (headers resp)
         = Some match contentLength properties with
                | Some n => pretty n
                | None => "0"%string
                end
      /\ calls w' = calls w ++ [CallCreateIfNotExists "blob"; CallDownload name;
                                CallGetProperties name]
      /\ store w' = s3.
Proof.
  intros Σ B clock cs c request name w read s2 properties s3 Hc Hm Hq Hd Hp.
  destruct (blob_download_runs B clock cs c Hc request name w read s2 _ s3 Hm Hq Hd Hp)
    as (w' & E & S & K).
  exists (downloaded properties (concat read)), w'.
  split; [exact E |]. cbn [downloaded status body headers assoc String.eqb Ascii.eqb Bool.eqb].
  repeat split; auto.
  destruct (contentLength properties) as [n|]; cbn [option_map]; [| reflexivity].
  now rewrite or_else_truthy by apply pretty_N_nonempty.
Qed.

Lemma blob_download_answers_bytes_witness :
  exists resp w',
    blobStorageApi memory_blobs stamp conn
      (a_request "GET" [("blobName", "a.txt")] (Returned JNull)) (start one_blob)
    = (Returned resp, w')
    /\ status resp = 200
    /\ body resp = BodyBuffer (concat [[Byte.x78]])
    /\ assoc "Content-Type" (headers resp) = Some "text/plain"%string
    /\ assoc "Content-Length" (headers resp) = Some "1"%string
    /\ calls w' = [] ++ [CallCreateIfNotExists "blob"; CallDownload "a.txt";
                         CallGetProperties "a.txt"]
    /\ store w' = one_blob.
Proof.
  apply (blob_download_answers_bytes _ memory_blobs stamp conn "UseDevelopmentStorage=true"
           (a_request "GET" [("blobName", "a.txt")] (Returned JNull)) "a.txt"
           (start one_blob) [[Byte.x78]] one_blob
           {| contentType := Some "text/plain"%string; contentLength := Some 1%N |} one_blob);
    reflexivity.
Defined.

(** X7: a blob POST with a blobName issues one upload of the whole request
    body under that name, with the byte length of the body, the content type
    of the request header (application/octet-stream when there is none) and
    the metadata uploadedAt (the time of the request) and uploadedBy.  When
    the upload returns the answer is 201 with the name, the request id, etag
    and last-modified time of the store and the URL of the blob. *)
Theorem blob_upload_answers_201 :
  forall (Σ : Type) (B : string -> string -> ContainerClient Σ) (clock : string)
         (cs : option string) (c : string) (request : HttpRequest) (name : string)
         (w : World Σ) (r : UploadResponse) (s2 : Σ),
    truthy cs = Some c ->
    method_is request "POST" ->
    truthy (query_get request "blobName") = Some name ->
    upload (B c "documents"%string) name (req_arrayBuffer request)
      (length (req_arrayBuffer request)) (upload_options request clock)
      (ensured_container (B c "documents"%string) (store w)) = (Returned r, s2) ->
    exists w',
      blobStorageApi B clock cs request w
      = (Returned (uploaded (B c "documents"%string) name r), w')
      /\ status (uploaded (B c "documents"%string) name r) = 201
      /\ calls w' = calls w ++ [CallCreateIfNotExists "blob";
                                CallUpload name (req_arrayBuffer request)
                                  (length (req_arrayBuffer request))
                                  (upload_options request clock)]
      /\ blobContentType (upload_options request clock) <> EmptyString
      /\ (headers_get request "content-type" = None ->
          blobContentType (upload_options request clock) = "application/octet-stream"%string)
      /\ store w' = s2.
Proof.
  intros Σ B clock cs c request name w r s2 Hc Hm Hq Hu.
  destruct (blob_post_runs B clock cs c Hc request name w _ s2 Hm Hq Hu) as (w' & E & S & K).
  exists w'. repeat split; auto.
  - apply or_else_nonempty. discriminate.
  - intros H. cbn. now rewrite H.
Qed.

Lemma blob_upload_answers_201_witness :
  exists w',
    blobStorageApi memory_blobs stamp conn text_upload (start MemoryContainer.empty)
    = (Returned (uploaded MemoryContainer.client "b.txt"
                   {| up_requestId := JStr "req-1"; up_etag := JStr "0x1";
                      up_lastModified := JStr "2024-01-01T00:00:00.000Z" |}), w')
    /\ status (uploaded MemoryContainer.client "b.txt"
                 {| up_requestId := JStr "req-1"; up_etag := JStr "0x1";
                    up_lastModified := JStr "2024-01-01T00:00:00.000Z" |}) = 201
    /\ calls w' = [] ++ [CallCreateIfNotExists "blob";
                         CallUpload "b.txt" [Byte.x68; Byte.x69] 2
                           (upload_options text_upload stamp)]
    /\ blobContentType (upload_options text_upload stamp) <> EmptyString
    /\ (headers_get text_upload "content-type" = None ->
        blobContentType (upload_options text_upload stamp) = "application/octet-stream"%string)
    /\ store w'
       = {| MemoryContainer.containerExists := true;
            MemoryContainer.blobs :=
              <["b.txt"%string := {| MemoryContainer.content := [Byte.x68; Byte.x69];
                                     MemoryContainer.mime := "text/plain" |}]> ∅ |}.
Proof.
  apply (blob_upload_answers_201 _ memory_blobs stamp conn "UseDevelopmentStorage=true"
           text_upload "b.txt" (start MemoryContainer.empty));
    reflexivity.
Defined.

(** ** The in-memory container *)

Lemma memory_container_ensured (st : MemoryContainer.state) :
  ensured_container MemoryContainer.client st = opened_container st.
Proof. reflexivity. Qed.

Lemma memory_container_existing (s : MemoryContainer.state) :
  MemoryContainer.containerExists s = true ->
  ensured_container MemoryContainer.client s = s.
Proof. destruct s as [ex bl]. cbn. intros ->. reflexivity. Qed.

Lemma memory_download_hit (s : MemoryContainer.state) (name : string)
      (b : MemoryContainer.StoredBlob) :
  MemoryContainer.containerExists s = true ->
  MemoryContainer.blobs s !! name = Some b ->
  download MemoryContainer.client name s
  = (Returned {| readableStreamBody :=
                   Some {| yielded := [MemoryContainer.content b]; failure := None |} |}, s)
  /\ getProperties MemoryContainer.client name s
     = (Returned {| contentType := Some (MemoryContainer.mime b);
                    contentLength :=
                      Some (N.of_nat (length (MemoryContainer.content b))) |}, s).
Proof.
  intros Hex Hb. cbn [download getProperties MemoryContainer.client].
  unfold MemoryContainer.in_container. rewrite Hex, Hb. split; reflexivity.
Qed.

(** X4: on the in-memory container, a blob POST followed by a blob GET of
    the same name gives back exactly the bytes that were posted, with the
    content type of the upload request (application/octet-stream when it had
    none) and their length in decimal as Content-Length, whatever the
    container held before. *)
Theorem upload_then_download_round_trip :
  forall (clock clock' : string) (cs : option string) (c : string)
         (post get : HttpRequest) (name : string) (st : MemoryContainer.state),
    truthy cs = Some c ->
    method_is post "POST" ->
    method_is get "GET" ->
    truthy (query_get post "blobName") = Some name ->
    truthy (query_get get "blobName") = Some name ->
    exists r1 w1 w2,
      blobStorageApi memory_blobs clock cs post (start st) = (Returned r1, w1)
      /\ status r1 = 201
      /\ blobStorageApi memory_blobs clock' cs get w1
         = (Returned
              {| status := 200;
                 headers :=
                   [("Content-Type",
                     or_else (headers_get post "content-type") "application/octet-stream");
                    ("Content-Length", pretty (N.of_nat (length (req_arrayBuffer post))))];
                 body := BodyBuffer (req_arrayBuffer post) |}, w2).
Proof.
  intros clock clock' cs c post get name st Hc Hp Hg Hqp Hqg.
  set (blob := {| MemoryContainer.content := req_arrayBuffer post;
                  MemoryContainer.mime := blobContentType (upload_options post clock) |}).
  set (st1 := {| MemoryContainer.containerExists := true;
                 MemoryContainer.blobs := <[name := blob]> (MemoryContainer.blobs st) |}).
  destruct (blob_post_runs memory_blobs clock cs c Hc post name (start st)
              (Returned {| up_requestId := JStr "req-1"; up_etag := JStr "0x1";
                           up_lastModified := JStr "2024-01-01T00:00:00.000Z" |})
              st1 Hp Hqp eq_refl) as (w1 & E1 & S1 & _).
  assert (L : MemoryContainer.blobs st1 !! name = Some blob) by apply lookup_insert_eq.
  destruct (memory_download_hit st1 name blob eq_refl L) as [Hd Hprops].
  destruct (blob_download_runs memory_blobs clock' cs c Hc get name w1
              [req_arrayBuffer post] st1
              (Returned {| contentType := Some (MemoryContainer.mime blob);
                           contentLength :=
                             Some (N.of_nat (length (MemoryContainer.content blob))) |})
              st1 Hg Hqg) as (w2 & E2 & _).
  { rewrite S1. unfold memory_blobs.
    rewrite (memory_container_existing st1 eq_refl). exact Hd. }
  { exact Hprops. }
  eexists _, w1, w2. split; [exact E1 |]. split; [reflexivity |].
  rewrite E2. unfold downloaded. cbn [contentType contentLength option_map concat].
  rewrite app_nil_r.
  rewrite (or_else_truthy (pretty _)) by apply pretty_N_nonempty.
  subst blob. cbn [MemoryContainer.mime MemoryContainer.content upload_options blobContentType].
  rewrite or_else_truthy by (apply or_else_nonempty; discriminate).
  reflexivity.
Qed.

Lemma upload_then_download_round_trip_witness :
  exists r1 w1 w2,
    blobStorageApi memory_blobs stamp conn text_upload (start one_blob) = (Returned r1, w1)
    /\ status r1 = 201
    /\ blobStorageApi memory_blobs stamp conn
         (a_request "GET" [("blobName", "b.txt")] (Returned JNull)) w1
       = (Returned
            {| status := 200;
               headers :=
                 [("Content-Type",
                   or_else (headers_get text_upload "content-type") "application/octet-stream");
                  ("Content-Length", pretty (N.of_nat (length (req_arrayBuffer text_upload))))];
               body := BodyBuffer (req_arrayBuffer text_upload) |}, w2).
Proof.
  apply (upload_then_download_round_trip stamp stamp conn "UseDevelopmentStorage=true"
           text_upload (a_request "GET" [("blobName", "b.txt")] (Returned JNull)) "b.txt"
           one_blob);
    reflexivity.
Defined.

(** ** Errors off the lookup paths *)

(** X5: the translation of a store 404 into an HTTP 404 is confined to the
    lookup and delete paths.  When the blob upload, the blob listing, the
    record listing or the record upsert fails, with status code 404 or any
    other, the answer is 500 with the message of the error. *)
Theorem store_errors_elsewhere_are_500 :
  forall (ΣB ΣT : Type) (B : string -> string -> ContainerClient ΣB)
         (T : string -> string -> TableClient ΣT) (clock : string)
         (cs : option string) (c : string) (e : JsError),
    truthy cs = Some c ->
    (forall request name w s2,
        method_is request "POST" ->
        truthy (query_get request "blobName") = Some name ->
        upload (B c "documents"%string) name (req_arrayBuffer request)
          (length (req_arrayBuffer request)) (upload_options request clock)
          (ensured_container (B c "documents"%string) (store w)) = (Threw e, s2) ->
        fst (blobStorageApi B clock cs request w) = Returned (internal_error e))
    /\ (forall request w s2,
        method_is request "GET" ->
        truthy (query_get request "blobName") = None ->
        listBlobsFlat (B c "documents"%string)
          (ensured_container (B c "documents"%string) (store w)) = (Threw e, s2) ->
        fst (blobStorageApi B clock cs request w) = Returned (internal_error e))
    /\ (forall request w s2,
        method_is request "GET" ->
        truthy (query_get request "userId") = None ->
        listEntities (T c "users"%string) (department_of request)
          (ensured_table (T c "users"%string) (store w)) = (Threw e, s2) ->
        fst (tableStorageApi T cs request w) = Returned (internal_error e))
    /\ (forall request payload w s2,
        method_is request "PUT" ->
        req_json request = Returned payload ->
        falsy (get_prop payload "userId") = false ->
        upsertEntity (T c "users"%string) (record_of payload) "Replace"
          (ensured_table (T c "users"%string) (store w)) = (Threw e, s2) ->
        fst (tableStorageApi T cs request w) = Returned (internal_error e))
    /\ status (internal_error e) = 500.
Proof.
  intros ΣB ΣT B T clock cs c e Hc. split; [| split; [| split; [| split]]].
  - intros request name w s2 Hm Hq H.
    destruct (blob_post_runs B clock cs c Hc request name w _ s2 Hm Hq H) as (w' & -> & _).
    reflexivity.
  - intros request w s2 Hm Hq H.
    destruct (blob_list_runs B clock cs c Hc request w _ s2 Hm Hq H) as (w' & -> & _).
    reflexivity.
  - intros request w s2 Hm Hq H.
    destruct (table_list_runs T cs c Hc request w _ s2 Hm Hq H) as (w' & -> & _).
    reflexivity.
  - intros request payload w s2 Hm Hj Hu H.
    destruct (table_put_upserts T cs c Hc request payload w _ s2 Hm Hj Hu H) as (w' & -> & _).
    reflexivity.
  - reflexivity.
Qed.

Lemma store_errors_elsewhere_are_500_witness :
  fst (blobStorageApi (failing_blobs gone) stamp conn text_upload (start tt))
  = Returned (internal_error gone)
  /\ fst (blobStorageApi (failing_blobs gone) stamp conn
            (a_request "GET" [] (Returned JNull)) (start tt))
     = Returned (internal_error gone)
  /\ fst (tableStorageApi (failing_table gone) conn
            (a_request "GET" [] (Returned JNull)) (start tt))
     = Returned (internal_error gone)
  /\ fst (tableStorageApi (failing_table gone) conn
            (a_request "PUT" [] (Returned bare_put)) (start tt))
     = Returned (internal_error gone)
  /\ statusCode gone = Some 404
  /\ status (internal_error gone) = 500.
Proof.
  destruct (store_errors_elsewhere_are_500 _ _ (failing_blobs gone) (failing_table gone)
              stamp conn "UseDevelopmentStorage=true" gone eq_refl)
    as (Hup & Hls & Tls & Tput & Hs).
  split; [| split; [| split; [| split; [| split]]]].
  - apply (Hup text_upload "b.txt"%string (start tt) tt); reflexivity.
  - apply (Hls (a_request "GET" [] (Returned JNull)) (start tt) tt); reflexivity.
  - apply (Tls (a_request "GET" [] (Returned JNull)) (start tt) tt); reflexivity.
  - apply (Tput (a_request "PUT" [] (Returned bare_put)) bare_put (start tt) tt); reflexivity.
  - reflexivity.
  - exact Hs.
Defined.

(** ** Reads *)

(** X6: a GET without the key parameter, or with an empty one, is a listing,
    not an error.  The blob endpoint issues one listing call and answers 200
    with one entry [{name, size, lastModified, contentType}] per blob, in the
    order of the store, and their number as count.  The table endpoint lists
    the partition named by department ("default" when department is absent
    or empty) and answers 200 with the records as the store gave them and
    their number as count. *)
Theorem get_without_key_lists :
  forall (ΣB ΣT : Type) (B : string -> string -> ContainerClient ΣB)
         (T : string -> string -> TableClient ΣT) (clock : string)
         (cs : option string) (c : string) (request : HttpRequest),
    truthy cs = Some c ->
    method_is request "GET" ->
    (forall w items s2,
        query_get request "blobName" = None
          \/ query_get request "blobName" = Some EmptyString ->
        listBlobsFlat (B c "documents"%string)
          (ensured_container (B c "documents"%string) (store w)) = (Returned items, s2) ->
        exists w',
          blobStorageApi B clock cs request w = (Returned (blob_listing items), w')
          /\ body (blob_listing items)
             = BodyJson (JObj [("blobs", JArr (map blob_item_json items));
                               ("count", js_of_nat (length items))])
          /\ calls w' = calls w ++ [CallCreateIfNotExists "blob"; CallListBlobsFlat])
    /\ (forall w users s2,
        query_get request "userId" = None
          \/ query_get request "userId" = Some EmptyString ->
        listEntities (T c "users"%string) (department_of request)
          (ensured_table (T c "users"%string) (store w)) = (Returned users, s2) ->
        exists w',
          tableStorageApi T cs request w = (Returned (user_listing users), w')
          /\ body (user_listing users)
             = BodyJson (JObj [("users", JArr users); ("count", js_of_nat (length users))])
          /\ calls w' = calls w ++ [CallCreateTable; CallListEntities (department_of request)])
    /\ (query_get request "department" = None
          \/ query_get request "department" = Some EmptyString ->
        department_of request = "default"%string).
Proof.
  intros ΣB ΣT B T clock cs c request Hc Hm. split; [| split].
  - intros w items s2 Hq H.
    assert (Hq' : truthy (query_get request "blobName") = None)
      by (destruct Hq as [-> | ->]; reflexivity).
    destruct (blob_list_runs B clock cs c Hc request w _ s2 Hm Hq' H) as (w' & E & _ & K).
    eauto.
  - intros w users s2 Hq H.
    assert (Hq' : truthy (query_get request "userId") = None)
      by (destruct Hq as [-> | ->]; reflexivity).
    destruct (table_list_runs T cs c Hc request w _ s2 Hm Hq' H) as (w' & E & _ & K).
    eauto.
  - unfold department_of. intros [-> | ->]; reflexivity.
Qed.

Lemma get_without_key_lists_witness :
  (exists w',
      blobStorageApi memory_blobs stamp conn
        (a_request "GET" [("blobName", EmptyString)] (Returned JNull)) (start one_blob)
      = (Returned (blob_listing (map MemoryContainer.item
                                   (map_to_list (MemoryContainer.blobs one_blob)))), w')
      /\ body (blob_listing (map MemoryContainer.item
                               (map_to_list (MemoryContainer.blobs one_blob))))
         = BodyJson (JObj [("blobs", JArr (map blob_item_json
                                             (map MemoryContainer.item
                                                (map_to_list (MemoryContainer.blobs one_blob)))));
                           ("count", js_of_nat
                                       (length (map MemoryContainer.item
                                                  (map_to_list (MemoryContainer.blobs one_blob)))))])
      /\ calls w' = [] ++ [CallCreateIfNotExists "blob"; CallListBlobsFlat])
  /\ department_of (a_request "GET" [("blobName", EmptyString)] (Returned JNull))
     = "default"%string.
Proof.
  destruct (get_without_key_lists _ _ memory_blobs memory_table stamp conn
              "UseDevelopmentStorage=true"
              (a_request "GET" [("blobName", EmptyString)] (Returned JNull))
              eq_refl eq_refl) as (Hblob & _ & Hdep).
  split.
  - apply (Hblob (start one_blob) _ one_blob); [right; reflexivity | reflexivity].
  - apply Hdep. left. reflexivity.
Defined.

(** X9: a table GET with a userId issues one lookup, in the partition named
    by department ("default" when department is absent or empty), and when
    the lookup returns it answers 200 with the record exactly as the store
    gave it. *)
Theorem table_fetch_answers_record :
  forall (Σ : Type) (T : string -> string -> TableClient Σ)
         (cs : option string) (c : string) (request : HttpRequest) (userId : string)
         (w : World Σ) (entity : jsval) (s2 : Σ),
    truthy cs = Some c ->
    method_is request "GET" ->
    truthy (query_get request "userId") = Some userId ->
    getEntity (T c "users"%string) (department_of request) userId
      (ensured_table (T c "users"%string) (store w)) = (Returned entity, s2) ->
    exists w',
      tableStorageApi T cs request w
      = (Returned {| status := 200; headers := []; body := BodyJson entity |}, w')
      /\ calls w' = calls w ++ [CallCreateTable; CallGetEntity (department_of request) userId]
      /\ (truthy (query_get request "department") = None ->
          department_of request = "default"%string)
      /\ store w' = s2.
Proof.
  intros Σ T cs c request userId w entity s2 Hc Hm Hq H.
  destruct (table_get_runs T cs c Hc request userId w _ s2 Hm Hq H) as (w' & E & S & K).
  exists w'. repeat split; auto.
  unfold department_of, or_else. now intros ->.
Qed.

Lemma table_fetch_answers_record_witness :
  exists w',
    tableStorageApi memory_table conn
      (a_request "GET" [("userId", "u1"); ("department", EmptyString)] (Returned JNull))
      (start (table_with ("default"%string, "u1"%string) alice))
    = (Returned {| status := 200; headers := []; body := BodyJson alice |}, w')
    /\ calls w' = [] ++ [CallCreateTable;
                         CallGetEntity
                           (department_of
                              (a_request "GET" [("userId", "u1"); ("department", EmptyString)]
                                 (Returned JNull))) "u1"]
    /\ (truthy (query_get
                  (a_request "GET" [("userId", "u1"); ("department", EmptyString)]
                     (Returned JNull)) "department") = None ->
        department_of (a_request "GET" [("userId", "u1"); ("department", EmptyString)]
                         (Returned JNull)) = "default"%string)
    /\ store w' = table_with ("default"%string, "u1"%string) alice.
Proof.
  apply (table_fetch_answers_record _ memory_table conn "UseDevelopmentStorage=true"
           (a_request "GET" [("userId", "u1"); ("department", EmptyString)] (Returned JNull))
           "u1" (start (table_with ("default"%string, "u1"%string) alice)));
    reflexivity.
Defined.

(** ** Deletes *)

(** X8: a DELETE with its key parameter issues one delete call: of the named
    blob with its snapshots included, or of the record under (department or
    "default", userId).  When the call returns the answer is 200: the blob
    endpoint reports the name and the request id of the store, the table
    endpoint a fixed confirmation. *)
Theorem delete_answers_200 :
  forall (ΣB ΣT : Type) (B : string -> string -> ContainerClient ΣB)
         (T : string -> string -> TableClient ΣT) (clock : string)
         (cs : option string) (c : string) (request : HttpRequest),
    truthy cs = Some c ->
    method_is request "DELETE" ->
    (forall name w r s2,
        truthy (query_get request "blobName") = Some name ->
        deleteBlob (B c "documents"%string) name "include"
          (ensured_container (B c "documents"%string) (store w)) = (Returned r, s2) ->
        exists w',
          blobStorageApi B clock cs request w
          = (Returned (json_response 200
                         [("message", JStr "Blob deleted successfully");
                          ("blobName", JStr name);
                          ("requestId", del_requestId r)]), w')
          /\ calls w' = calls w ++ [CallCreateIfNotExists "blob";
                                    CallDeleteBlob name "include"]
          /\ store w' = s2)
    /\ (forall userId w s2,
        truthy (query_get request "userId") = Some userId ->
        deleteEntity (T c "users"%string) (department_of request) userId
          (ensured_table (T c "users"%string) (store w)) = (Returned tt, s2) ->
        exists w',
          tableStorageApi T cs request w
          = (Returned (json_response 200 [("message", JStr "User deleted successfully")]), w')
          /\ calls w' = calls w ++ [CallCreateTable;
                                    CallDeleteEntity (department_of request) userId]
          /\ store w' = s2).
Proof.
  intros ΣB ΣT B T clock cs c request Hc Hm. split.
  - intros name w r s2 Hq H.
    destruct (blob_delete_runs B clock cs c Hc request name w _ s2 Hm Hq H)
      as (w' & E & S & K).
    exists w'. auto.
  - intros userId w s2 Hq H.
    destruct (table_delete_runs T cs c Hc request userId w _ s2 Hm Hq H)
      as (w' & E & S & K).
    exists w'. auto.
Qed.

Lemma delete_answers_200_witness :
  (exists w',
      blobStorageApi memory_blobs stamp conn
        (a_request "DELETE" [("blobName", "a.txt"); ("userId", "u1")] (Returned JNull))
        (start one_blob)
      = (Returned (json_response 200
                     [("message", JStr "Blob deleted successfully");
                      ("blobName", JStr "a.txt");
                      ("requestId", del_requestId {| del_requestId := JStr "req-2" |})]), w')
      /\ calls w' = [] ++ [CallCreateIfNotExists "blob"; CallDeleteBlob "a.txt" "include"]
      /\ store w' = {| MemoryContainer.containerExists := true;
                       MemoryContainer.blobs :=
                         delete "a.txt"%string (MemoryContainer.blobs one_blob) |})
  /\ (exists w',
         tableStorageApi memory_table conn
           (a_request "DELETE" [("blobName", "a.txt"); ("userId", "u1")] (Returned JNull))
           (start (table_with ("default"%string, "u1"%string) alice))
         = (Returned (json_response 200 [("message", JStr "User deleted successfully")]), w')
         /\ calls w' = [] ++ [CallCreateTable;
                              CallDeleteEntity
                                (department_of
                                   (a_request "DELETE" [("blobName", "a.txt"); ("userId", "u1")]
                                      (Returned JNull))) "u1"]
         /\ store w'
            = {| MemoryTable.tableExists := true;
                 MemoryTable.rows :=
                   delete ("default"%string, "u1"%string)
                     (MemoryTable.rows (table_with ("default"%string, "u1"%string) alice)) |}).
Proof.
  destruct (delete_answers_200 _ _ memory_blobs memory_table stamp conn
              "UseDevelopmentStorage=true"
              (a_request "DELETE" [("blobName", "a.txt"); ("userId", "u1")] (Returned JNull))
              eq_refl eq_refl) as [Hblob Htable].
  split.
  - apply (Hblob "a.txt"%string (start one_blob)); reflexivity.
  - apply (Htable "u1"%string (start (table_with ("default"%string, "u1"%string) alice)));
      reflexivity.
Defined.

(** ** Unreadable bodies *)

(** X10: a table POST or PUT whose body cannot be parsed as JSON, or is the
    JSON value null, is answered 500, not 400: the parse error, or the type
    error of destructuring null, reaches the outermost catch.  No create or
    upsert is issued. *)
Theorem unreadable_body_is_500 :
  forall (Σ : Type) (T : string -> string -> TableClient Σ)
         (cs : option string) (c : string) (request : HttpRequest) (w : World Σ)
         (e : JsError),
    truthy cs = Some c ->
    method_is request "POST" \/ method_is request "PUT" ->
    body_error request = Some e ->
    exists w',
      tableStorageApi T cs request w = (Returned (internal_error e), w')
      /\ status (internal_error e) = 500
      /\ calls w' = calls w ++ [CallCreateTable].
Proof.
  intros Σ T cs c request w e Hc Hm He. destruct w as [s cl lg]. revert Hm He.
  unfold body_error. unfold_api. intros Hm He. rewrite Hc.
  destruct (req_json request) as [e1 | []]; try discriminate He;
    injection He as <-;
    (destruct (createTable _ _) as [[e0|[]] s1] eqn:Hg;
     destruct Hm as [-> | ->]; js_simpl; eexists; repeat split; reflexivity).
Qed.

Lemma unreadable_body_is_500_witness :
  (exists w',
      tableStorageApi memory_table conn (a_request "POST" [] (Threw bad_json))
        (start MemoryTable.empty) = (Returned (internal_error bad_json), w')
      /\ status (internal_error bad_json) = 500
      /\ calls w' = [] ++ [CallCreateTable])
  /\ (exists e w',
         body_error (a_request "PUT" [] (Returned JNull)) = Some e
         /\ tableStorageApi memory_table conn (a_request "PUT" [] (Returned JNull))
              (start MemoryTable.empty) = (Returned (internal_error e), w')
         /\ status (internal_error e) = 500
         /\ calls w' = [] ++ [CallCreateTable]).
Proof.
  split.
  - apply (unreadable_body_is_500 _ memory_table conn "UseDevelopmentStorage=true"
             (a_request "POST" [] (Threw bad_json)) (start MemoryTable.empty) bad_json).
    + reflexivity.
    + left. reflexivity.
    + reflexivity.
  - eexists.
    destruct (unreadable_body_is_500 _ memory_table conn "UseDevelopmentStorage=true"
                (a_request "PUT" [] (Returned JNull)) (start MemoryTable.empty) _
                eq_refl (or_intror eq_refl) eq_refl) as (w' & H).
    exists w'. split; [reflexivity | exact H].
Defined.

(** ** The in-memory table *)

Lemma memory_table_opened (st : MemoryTable.state) :
  ensured_table MemoryTable.client st = opened_table st.
Proof. destruct st as [[] rows]; reflexivity. Qed.

Lemma memory_get (s : MemoryTable.state) (pk rk : string) :
  MemoryTable.tableExists s = true ->
  getEntity MemoryTable.client pk rk s
  = (match MemoryTable.rows s !! (pk, rk) with
     | Some e => Returned e
     | None => Threw MemoryTable.entity_not_found
     end, s).
Proof.
  intros Hex. cbn [getEntity MemoryTable.client]. unfold MemoryTable.in_table. rewrite Hex.
  destruct (MemoryTable.rows s !! (pk, rk)); reflexivity.
Qed.

Lemma memory_create (s : MemoryTable.state) (e : jsval) (k : string * string) :
  MemoryTable.tableExists s = true ->
  MemoryTable.key_of e = Some k ->
  MemoryTable.rows s !! k = None ->
  createEntity MemoryTable.client e s = (Returned tt, MemoryTable.put s k (MemoryTable.stored e)).
Proof.
  intros Hex Hk Hfree. cbn [createEntity MemoryTable.client]. unfold MemoryTable.in_table.
  rewrite Hex, Hk. cbv beta iota. rewrite Hfree. reflexivity.
Qed.

Lemma memory_upsert (s : MemoryTable.state) (e : jsval) (k : string * string) :
  MemoryTable.tableExists s = true ->
  MemoryTable.key_of e = Some k ->
  upsertEntity MemoryTable.client e "Replace" s
  = (Returned tt, MemoryTable.put s k (MemoryTable.stored e)).
Proof.
  intros Hex Hk. cbn [upsertEntity MemoryTable.client]. unfold MemoryTable.in_table.
  rewrite Hex, Hk. reflexivity.
Qed.

Lemma memory_delete (s : MemoryTable.state) (pk rk : string) :
  MemoryTable.tableExists s = true ->
  deleteEntity MemoryTable.client pk rk s
  = match MemoryTable.rows s !! (pk, rk) with
    | Some _ => (Returned tt,
                 {| MemoryTable.tableExists := true;
                    MemoryTable.rows := delete (pk, rk) (MemoryTable.rows s) |})
    | None => (Threw MemoryTable.entity_not_found, s)
    end.
Proof.
  intros Hex. cbn [deleteEntity MemoryTable.client]. unfold MemoryTable.in_table. rewrite Hex.
  destruct (MemoryTable.rows s !! (pk, rk)); reflexivity.
Qed.

Lemma truthy_defined (k : string) (v : jsval) : falsy v = false -> MemoryTable.defined (k, v) = true.
Proof. destruct v; cbn; congruence. Qed.

(** A record that passed the presence check of a POST and has text keys is
    stored whole: none of its five properties is undefined. *)
Lemma stored_record_whole (payload : jsval) (k : string * string) :
  falsy (get_prop payload "userId") || falsy (get_prop payload "name")
    || falsy (get_prop payload "email") = false ->
  MemoryTable.key_of (record_of payload) = Some k ->
  MemoryTable.stored (record_of payload) = record_of payload.
Proof.
  intros Hf Hk. apply orb_false_elim in Hf as [Hf He]. apply orb_false_elim in Hf as [Hu Hn].
  revert Hk. unfold record_of, UserEntity, MemoryTable.stored, MemoryTable.key_of.
  cbn [get_prop assoc String.eqb Ascii.eqb Bool.eqb List.filter].
  rewrite (truthy_defined _ _ Hu), (truthy_defined _ _ Hn), (truthy_defined _ _ He).
  destruct (with_default (get_prop payload "department") (JStr "default")) eqn:D;
    try discriminate.
  intros _.
  assert (A : MemoryTable.defined ("age"%string, js_or (get_prop payload "age") (JNum 0)) = true).
  { unfold js_or. destruct (falsy (get_prop payload "age")) eqn:F; [reflexivity |].
    now apply truthy_defined. }
  rewrite A. reflexivity.
Qed.

Section MemoryRuns.
Variables (cs : option string) (c : string).
Hypothesis configured : truthy cs = Some c.

Lemma memory_run_get (request : HttpRequest) (u : string) (w : World MemoryTable.state) :
  method_is request "GET" ->
  truthy (query_get request "userId") = Some u ->
  exists w',
    tableStorageApi memory_table cs request w
    = (Returned match MemoryTable.rows (store w) !! (department_of request, u) with
                | Some e => fetched e
                | None => user_not_found
                end, w')
    /\ store w' = opened_table (store w).
Proof.
  intros Hm Hq.
  destruct (table_get_runs memory_table cs c configured request u w
              match MemoryTable.rows (store w) !! (department_of request, u) with
              | Some e => Returned e
              | None => Threw MemoryTable.entity_not_found
              end (opened_table (store w)) Hm Hq) as (w' & E & S & _).
  { unfold memory_table. rewrite memory_table_opened. now rewrite memory_get. }
  exists w'. split; [| exact S]. rewrite E.
  destruct (MemoryTable.rows (store w) !! (department_of request, u)); reflexivity.
Qed.

Lemma memory_run_delete (request : HttpRequest) (u : string) (w : World MemoryTable.state) :
  method_is request "DELETE" ->
  truthy (query_get request "userId") = Some u ->
  exists w',
    tableStorageApi memory_table cs request w
    = (Returned match MemoryTable.rows (store w) !! (department_of request, u) with
                | Some _ => user_deleted
                | None => user_not_found
                end, w')
    /\ MemoryTable.tableExists (store w') = true
    /\ MemoryTable.rows (store w') = delete (department_of request, u) (MemoryTable.rows (store w)).
Proof.
  intros Hm Hq.
  destruct (deleteEntity MemoryTable.client (department_of request) u (opened_table (store w)))
    as [o s2] eqn:Hd.
  destruct (table_delete_runs memory_table cs c configured request u w o s2 Hm Hq)
    as (w' & E & S & _).
  { unfold memory_table. now rewrite memory_table_opened. }
  rewrite memory_delete in Hd by reflexivity. cbn [opened_table MemoryTable.rows] in Hd.
  exists w'. rewrite E, S.
  destruct (MemoryTable.rows (store w) !! (department_of request, u)) eqn:L;
    injection Hd as <- <-; cbn [MemoryTable.tableExists MemoryTable.rows opened_table].
  - repeat split.
  - repeat split. symmetry. now apply delete_id.
Qed.

Lemma memory_run_post (request : HttpRequest) (payload : jsval) (k : string * string)
      (w : World MemoryTable.state) :
  method_is request "POST" ->
  req_json request = Returned payload ->
  falsy (get_prop payload "userId") || falsy (get_prop payload "name")
    || falsy (get_prop payload "email") = false ->
  MemoryTable.key_of (record_of payload) = Some k ->
  MemoryTable.rows (store w) !! k = None ->
  exists w',
    tableStorageApi memory_table cs request w = (Returned (created (record_of payload)), w')
    /\ store w' = MemoryTable.put (opened_table (store w)) k (record_of payload).
Proof.
  intros Hm Hj Hf Hk Hfree.
  destruct (table_post_creates memory_table cs c configured request payload w (Returned tt)
              (MemoryTable.put (opened_table (store w)) k (record_of payload)) Hm Hj Hf)
    as (w' & E & S & _).
  { unfold memory_table. rewrite memory_table_opened.
    rewrite (memory_create _ _ k) by easy. now rewrite (stored_record_whole payload k). }
  eauto.
Qed.

Lemma memory_run_put (request : HttpRequest) (payload : jsval) (k : string * string)
      (w : World MemoryTable.state) :
  method_is request "PUT" ->
  req_json request = Returned payload ->
  falsy (get_prop payload "userId") = false ->
  MemoryTable.key_of (record_of payload) = Some k ->
  exists w',
    tableStorageApi memory_table cs request w = (Returned (updated (record_of payload)), w')
    /\ store w' = MemoryTable.put (opened_table (store w)) k
                    (MemoryTable.stored (record_of payload)).
Proof.
  intros Hm Hj Hf Hk.
  destruct (table_put_upserts memory_table cs c configured request payload w (Returned tt)
              (MemoryTable.put (opened_table (store w)) k
                 (MemoryTable.stored (record_of payload))) Hm Hj Hf)
    as (w' & E & S & _).
  { unfold memory_table. rewrite memory_table_opened. now rewrite (memory_upsert _ _ k). }
  eauto.
Qed.
End MemoryRuns.

(** X12: the life of a record on the in-memory table.  A POST for a free
    key is answered 201; a GET of that key then answers 200 with the very
    record the POST returned; a DELETE of the key answers 200; after it a
    GET and a second DELETE of the key both answer 404. *)
Theorem record_lifecycle :
  forall (cs : option string) (c : string) (post get del : HttpRequest)
         (payload : jsval) (u : string) (st : MemoryTable.state),
    truthy cs = Some c ->
    method_is post "POST" -> method_is get "GET" -> method_is del "DELETE" ->
    req_json post = Returned payload ->
    falsy (get_prop payload "userId") || falsy (get_prop payload "name")
      || falsy (get_prop payload "email") = false ->
    MemoryTable.key_of (record_of payload) = Some (department_of get, u) ->
    truthy (query_get get "userId") = Some u ->
    truthy (query_get del "userId") = Some u ->
    department_of del = department_of get ->
    MemoryTable.rows st !! (department_of get, u) = None ->
    exists w1 w2 w3 w4 w5,
      tableStorageApi memory_table cs post (start st)
      = (Returned (created (record_of payload)), w1)
      /\ tableStorageApi memory_table cs get w1 = (Returned (fetched (record_of payload)), w2)
      /\ tableStorageApi memory_table cs del w2 = (Returned user_deleted, w3)
      /\ tableStorageApi memory_table cs get w3 = (Returned user_not_found, w4)
      /\ tableStorageApi memory_table cs del w4 = (Returned user_not_found, w5).
Proof.
  intros cs c post get del payload u st Hc Hp Hg Hd Hj Hf Hk Hqg Hqd Hdep Hfree.
  destruct (memory_run_post cs c Hc post payload _ (start st) Hp Hj Hf Hk Hfree)
    as (w1 & E1 & S1).
  destruct (memory_run_get cs c Hc get u w1 Hg Hqg) as (w2 & E2 & S2).
  destruct (memory_run_delete cs c Hc del u w2 Hd Hqd) as (w3 & E3 & X3 & R3).
  destruct (memory_run_get cs c Hc get u w3 Hg Hqg) as (w4 & E4 & S4).
  destruct (memory_run_delete cs c Hc del u w4 Hd Hqd) as (w5 & E5 & _).
  exists w1, w2, w3, w4, w5.
  assert (L1 : MemoryTable.rows (store w1) !! (department_of get, u)
               = Some (record_of payload)).
  { rewrite S1. apply lookup_insert_eq. }
  assert (L2 : MemoryTable.rows (store w2) !! (department_of get, u)
               = Some (record_of payload)).
  { rewrite S2. exact L1. }
  assert (L3 : MemoryTable.rows (store w3) !! (department_of get, u) = None).
  { rewrite R3, Hdep. apply lookup_delete_eq. }
  assert (L4 : MemoryTable.rows (store w4) !! (department_of get, u) = None).
  { rewrite S4. exact L3. }
  rewrite E1, E2, E3, E4, E5, L1, Hdep, L2, L3, L4. repeat split.
Qed.

Lemma record_lifecycle_witness :
  exists w1 w2 w3 w4 w5,
    tableStorageApi memory_table conn (a_request "POST" [] (Returned carol_body))
      (start MemoryTable.empty)
    = (Returned (created (record_of carol_body)), w1)
    /\ tableStorageApi memory_table conn (a_request "GET" carol_query (Returned JNull)) w1
       = (Returned (fetched (record_of carol_body)), w2)
    /\ tableStorageApi memory_table conn (a_request "DELETE" carol_query (Returned JNull)) w2
       = (Returned user_deleted, w3)
    /\ tableStorageApi memory_table conn (a_request "GET" carol_query (Returned JNull)) w3
       = (Returned user_not_found, w4)
    /\ tableStorageApi memory_table conn (a_request "DELETE" carol_query (Returned JNull)) w4
       = (Returned user_not_found, w5).
Proof.
  apply (record_lifecycle conn "UseDevelopmentStorage=true"
           (a_request "POST" [] (Returned carol_body))
           (a_request "GET" carol_query (Returned JNull))
           (a_request "DELETE" carol_query (Returned JNull))
           carol_body "u7" MemoryTable.empty);
    reflexivity.
Defined.

(** X13: on the in-memory table a PUT answers 200 whether or not the key
    held a row, a GET of the key then answers 200 with the record as sent
    (the properties that hold a value), and a second, identical PUT leaves
    the rows as the first left them. *)
Theorem upsert_then_fetch :
  forall (cs : option string) (c : string) (put get : HttpRequest)
         (payload : jsval) (u : string) (st : MemoryTable.state),
    truthy cs = Some c ->
    method_is put "PUT" -> method_is get "GET" ->
    req_json put = Returned payload ->
    falsy (get_prop payload "userId") = false ->
    MemoryTable.key_of (record_of payload) = Some (department_of get, u) ->
    truthy (query_get get "userId") = Some u ->
    exists w1 w2 w3,
      tableStorageApi memory_table cs put (start st)
      = (Returned (updated (record_of payload)), w1)
      /\ tableStorageApi memory_table cs get w1
         = (Returned (fetched (MemoryTable.stored (record_of payload))), w2)
      /\ tableStorageApi memory_table cs put w1
         = (Returned (updated (record_of payload)), w3)
      /\ MemoryTable.rows (store w3) = MemoryTable.rows (store w1).
Proof.
  intros cs c put get payload u st Hc Hp Hg Hj Hf Hk Hq.
  destruct (memory_run_put cs c Hc put payload _ (start st) Hp Hj Hf Hk) as (w1 & E1 & S1).
  destruct (memory_run_get cs c Hc get u w1 Hg Hq) as (w2 & E2 & _).
  destruct (memory_run_put cs c Hc put payload _ w1 Hp Hj Hf Hk) as (w3 & E3 & S3).
  exists w1, w2, w3.
  assert (L1 : MemoryTable.rows (store w1) !! (department_of get, u)
               = Some (MemoryTable.stored (record_of payload))).
  { rewrite S1. apply lookup_insert_eq. }
  rewrite E1, E2, E3, L1. repeat split.
  rewrite S3, S1. cbn [MemoryTable.put MemoryTable.rows opened_table].
  apply insert_insert_eq.
Qed.

Lemma upsert_then_fetch_witness :
  exists w1 w2 w3,
    tableStorageApi memory_table conn (a_request "PUT" [] (Returned bare_put))
      (start (table_with ("default"%string, "u1"%string) bob_old))
    = (Returned (updated (record_of bare_put)), w1)
    /\ tableStorageApi memory_table conn (a_request "GET" [("userId", "u1")] (Returned JNull)) w1
       = (Returned (fetched (MemoryTable.stored (record_of bare_put))), w2)
    /\ tableStorageApi memory_table conn (a_request "PUT" [] (Returned bare_put)) w1
       = (Returned (updated (record_of bare_put)), w3)
    /\ MemoryTable.rows (store w3) = MemoryTable.rows (store w1).
Proof.
  apply (upsert_then_fetch conn "UseDevelopmentStorage=true"
           (a_request "PUT" [] (Returned bare_put))
           (a_request "GET" [("userId", "u1")] (Returned JNull))
           bare_put "u1" (table_with ("default"%string, "u1"%string) bob_old));
    reflexivity.
Defined.

(** X14: an empty department is treated differently in a body and in a
    query.  A POST whose body has the empty text as department creates the
    record in the partition of that name (the default applies to a missing
    department only), while a
    GET with department= in the query looks in "default": on the in-memory
    table the record just created is not found under the same pair. *)
Theorem empty_department_is_not_default_in_a_body :
  forall (cs : option string) (c : string) (post get : HttpRequest)
         (payload : jsval) (u : string) (st : MemoryTable.state),
    truthy cs = Some c ->
    method_is post "POST" -> method_is get "GET" ->
    req_json post = Returned payload ->
    get_prop payload "department" = JStr EmptyString ->
    get_prop payload "userId" = JStr u ->
    falsy (get_prop payload "userId") || falsy (get_prop payload "name")
      || falsy (get_prop payload "email") = false ->
    truthy (query_get get "userId") = Some u ->
    query_get get "department" = Some EmptyString ->
    MemoryTable.rows st !! (EmptyString, u) = None ->
    MemoryTable.rows st !! ("default"%string, u) = None ->
    exists w1 w2,
      tableStorageApi memory_table cs post (start st)
      = (Returned (created (record_of payload)), w1)
      /\ get_prop (record_of payload) "partitionKey" = JStr EmptyString
      /\ MemoryTable.rows (store w1) !! (EmptyString, u) = Some (record_of payload)
      /\ tableStorageApi memory_table cs get w1 = (Returned user_not_found, w2).
Proof.
  intros cs c post get payload u st Hc Hp Hg Hj Hd Hu Hf Hq Hqd Hfree Hfree'.
  assert (Hk : MemoryTable.key_of (record_of payload) = Some (EmptyString, u)).
  { unfold MemoryTable.key_of, record_of, UserEntity.
    cbn [get_prop assoc String.eqb Ascii.eqb Bool.eqb]. rewrite Hd, Hu. reflexivity. }
  destruct (memory_run_post cs c Hc post payload _ (start st) Hp Hj Hf Hk Hfree)
    as (w1 & E1 & S1).
  destruct (memory_run_get cs c Hc get u w1 Hg Hq) as (w2 & E2 & _).
  exists w1, w2.
  assert (D : department_of get = "default"%string).
  { unfold department_of. now rewrite Hqd. }
  split; [exact E1 |]. split.
  { unfold record_of, UserEntity. cbn [get_prop assoc String.eqb Ascii.eqb Bool.eqb].
    now rewrite Hd. }
  split.
  { rewrite S1. apply lookup_insert_eq. }
  rewrite E2, D, S1. cbn [MemoryTable.put MemoryTable.rows opened_table start store].
  rewrite lookup_insert_ne by discriminate. now rewrite Hfree'.
Qed.

Lemma empty_department_is_not_default_in_a_body_witness :
  exists w1 w2,
    tableStorageApi memory_table conn (a_request "POST" [] (Returned blank_department_body))
      (start MemoryTable.empty)
    = (Returned (created (record_of blank_department_body)), w1)
    /\ get_prop (record_of blank_department_body) "partitionKey" = JStr EmptyString
    /\ MemoryTable.rows (store w1) !! (EmptyString, "u1"%string)
       = Some (record_of blank_department_body)
    /\ tableStorageApi memory_table conn
         (a_request "GET" [("userId", "u1"); ("department", EmptyString)] (Returned JNull)) w1
       = (Returned user_not_found, w2).
Proof.
  apply (empty_department_is_not_default_in_a_body conn "UseDevelopmentStorage=true"
           (a_request "POST" [] (Returned blank_department_body))
           (a_request "GET" [("userId", "u1"); ("department", EmptyString)] (Returned JNull))
           blank_department_body "u1" MemoryTable.empty);
    reflexivity.
Defined.

(** ** What every request does *)



(** X16: with the credential configured, the creation attempt is the first
    SDK call of every request, whatever the method; at most two further
    calls follow on the blob endpoint and at most one on the table endpoint.
    On a GET the calls that follow only read. *)
Theorem guard_first_then_reads_on_get :
  forall (ΣB ΣT : Type) (B : string -> string -> ContainerClient ΣB)
         (T : string -> string -> TableClient ΣT) (clock : string)
         (cs : option string) (c : string) (request : HttpRequest)
         (wb : World ΣB) (wt : World ΣT),
    truthy cs = Some c ->
    (exists rest,
        calls (snd (blobStorageApi B clock cs request wb))
        = calls wb ++ CallCreateIfNotExists "blob" :: rest
        /\ (length rest <= 2)%nat
        /\ (method_is request "GET" -> forallb read_only rest = true))
    /\ (exists rest,
        calls (snd (tableStorageApi T cs request wt)) = calls wt ++ CallCreateTable :: rest
        /\ (length rest <= 1)%nat
        /\ (method_is request "GET" -> forallb read_only rest = true)).
Proof.
  intros ΣB ΣT B T clock cs c request wb wt Hc. unfold method_is. split.
  - destruct wb as [s cl lg]. unfold_api. rewrite Hc. case_split.
    all: rewrite <- ?app_assoc; cbn [app].
    all: eexists; split; [reflexivity |]; split; [cbn; lia |].
    all: intros Hm; first [reflexivity | wrong_method].
  - destruct wt as [s cl lg]. unfold_api. rewrite Hc. case_split.
    all: rewrite <- ?app_assoc; cbn [app].
    all: eexists; split; [reflexivity |]; split; [cbn; lia |].
    all: intros Hm; first [reflexivity | wrong_method].
Qed.

Lemma guard_first_then_reads_on_get_witness :
  (exists rest,
      calls (snd (blobStorageApi memory_blobs stamp conn
                    (a_request "GET" [("blobName", "a.txt")] (Returned JNull))
                    (start one_blob)))
      = [] ++ CallCreateIfNotExists "blob" :: rest
      /\ (length rest <= 2)%nat
      /\ (method_is (a_request "GET" [("blobName", "a.txt")] (Returned JNull)) "GET" ->
          forallb read_only rest = true))
  /\ (exists rest,
         calls (snd (tableStorageApi memory_table conn
                       (a_request "GET" [("blobName", "a.txt")] (Returned JNull))
                       (start MemoryTable.empty)))
         = [] ++ CallCreateTable :: rest
         /\ (length rest <= 1)%nat
         /\ (method_is (a_request "GET" [("blobName", "a.txt")] (Returned JNull)) "GET" ->
             forallb read_only rest = true)).
Proof.
  apply (guard_first_then_reads_on_get _ _ memory_blobs memory_table stamp conn
           "UseDevelopmentStorage=true"
           (a_request "GET" [("blobName", "a.txt")] (Returned JNull))
           (start one_blob) (start MemoryTable.empty)).
  reflexivity.
Defined.

(** X17: what a request writes to the invocation log.  The first entry
    names the URL; a creation attempt that throws is logged with its error,
    one that returns is not logged; after that the only entry there can be
    is the error entry of the outermost catch: it is there, and the answer
    is the 500 built from that error, or it is not there and the answer is
    not a 500. *)
Theorem log_of_a_request :
  forall (ΣB ΣT : Type) (B : string -> string -> ContainerClient ΣB)
         (T : string -> string -> TableClient ΣT) (clock : string)
         (cs : option string) (c : string) (request : HttpRequest)
         (wb : World ΣB) (wt : World ΣT),
    truthy cs = Some c ->
    (exists resp w' more,
        blobStorageApi B clock cs request wb = (Returned resp, w')
        /\ console w'
           = console wb
             ++ ContextLog ("Blob Storage API processed request for url "
                            +:+ quoted (req_url request)) None
             :: creation_log "Container creation result:"
                  (fst (createIfNotExists (B c "documents"%string) "blob" (store wb)))
             ++ more
        /\ ((more = [] /\ status resp <> 500)
            \/ exists e, more = [ContextError "Error in blob storage operation:" e]
                         /\ resp = internal_error e))
    /\ (exists resp w' more,
        tableStorageApi T cs request wt = (Returned resp, w')
        /\ console w'
           = console wt
             ++ ContextLog ("Table Storage API processed request for url "
                            +:+ quoted (req_url request)) None
             :: creation_log "Table creation result:"
                  (fst (createTable (T c "users"%string) (store wt)))
             ++ more
        /\ ((more = [] /\ status resp <> 500)
            \/ exists e, more = [ContextError "Error in table storage operation:" e]
                         /\ resp = internal_error e)).
Proof.
  intros ΣB ΣT B T clock cs c request wb wt Hc. split.
  - destruct wb as [s cl lg]. unfold_api. rewrite Hc. case_split.
    all: eexists _, _, _; (split; [reflexivity |]).
    all: cbn [console creation_log]; rewrite <- ?app_assoc; cbn [app].
    all: (split; [reflexivity |]).
    all: first [left; split; [reflexivity | discriminate]
               | right; eexists; split; reflexivity].
  - destruct wt as [s cl lg]. unfold_api. rewrite Hc. case_split.
    all: eexists _, _, _; (split; [reflexivity |]).
    all: cbn [console creation_log]; rewrite <- ?app_assoc; cbn [app].
    all: (split; [reflexivity |]).
    all: first [left; split; [reflexivity | discriminate]
               | right; eexists; split; reflexivity].
Qed.

Lemma log_of_a_request_witness :
  (exists resp w' more,
      blobStorageApi (failing_blobs gone) stamp conn text_upload (start tt)
      = (Returned resp, w')
      /\ console w'
         = [] ++ ContextLog ("Blob Storage API processed request for url "
                             +:+ quoted (req_url text_upload)) None
              :: creation_log "Container creation result:"
                   (fst (createIfNotExists (failing_blobs gone "UseDevelopmentStorage=true"
                                              "documents") "blob" tt))
              ++ more
      /\ ((more = [] /\ status resp <> 500)
          \/ exists e, more = [ContextError "Error in blob storage operation:" e]
                       /\ resp = internal_error e))
  /\ (exists resp w' more,
         tableStorageApi memory_table conn text_upload
           (start MemoryTable.empty) = (Returned resp, w')
         /\ console w'
            = [] ++ ContextLog ("Table Storage API processed request for url "
                                +:+ quoted (req_url text_upload)) None
                 :: creation_log "Table creation result:"
                      (fst (createTable (memory_table "UseDevelopmentStorage=true" "users")
                              MemoryTable.empty))
                 ++ more
         /\ ((more = [] /\ status resp <> 500)
             \/ exists e, more = [ContextError "Error in table storage operation:" e]
                          /\ resp = internal_error e)).
Proof.
  apply (log_of_a_request _ _ (failing_blobs gone) memory_table stamp conn
           "UseDevelopmentStorage=true").
  reflexivity.
Defined.

(** ** What is read of a request *)

(** X18: a table POST or PUT reads five names of its body and nothing else:
    userId, department, name, email and age.  Two bodies that hold the same
    values under these names (and are both null or both not) are answered
    alike, with the same SDK calls, the same store and the same log; any
    other field of the body is dropped. *)
Theorem only_five_names_are_read :
  forall (Σ : Type) (T : string -> string -> TableClient Σ)
         (cs : option string) (request : HttpRequest) (b1 b2 : jsval) (w : World Σ),
    req_json request = Returned b1 ->
    nullish b1 = false -> nullish b2 = false ->
    Forall (fun k => get_prop b1 k = get_prop b2 k) read_names ->
    tableStorageApi T cs (with_body (req_arrayBuffer request) (Returned b2) request) w
    = tableStorageApi T cs request w.
Proof.
  intros Σ T cs [u m q h ab j] b1 b2 w Hj N1 N2 H. cbn [req_json] in Hj. subst j.
  unfold read_names in H.
  repeat match goal with H : Forall _ (_ :: _) |- _ => inversion_clear H end.
  unfold with_body. cbn [req_url req_method req_query req_headers req_arrayBuffer req_json].
  destruct b1; try discriminate N1; destruct b2; try discriminate N2.
  all: unfold_api; unfold query_get;
    cbn [req_url req_method req_query req_headers req_arrayBuffer req_json].
  all: repeat match goal with E : get_prop _ _ = get_prop _ _ |- _ => rewrite <- E; clear E end.
  all: reflexivity.
Qed.

Lemma only_five_names_are_read_witness :
  tableStorageApi memory_table conn
    (with_body (req_arrayBuffer (a_request "POST" [] (Returned carol_body)))
       (Returned (JObj [("email", JStr "carol@x.com"); ("age", JNum 30);
                        ("userId", JStr "u7"); ("department", JStr "eng");
                        ("name", JStr "Carol")]))
       (a_request "POST" [] (Returned carol_body)))
    (start MemoryTable.empty)
  = tableStorageApi memory_table conn (a_request "POST" [] (Returned carol_body))
      (start MemoryTable.empty).
Proof.
  apply (only_five_names_are_read _ memory_table conn
           (a_request "POST" [] (Returned carol_body)) carol_body);
    [reflexivity | reflexivity | reflexivity |].
  repeat constructor.
Defined.

(** X19: a GET or a DELETE never reads the body of the request: with any
    other bytes and any other JSON in the body, or with a body that is not
    JSON at all, either endpoint answers alike and leaves the same store,
    SDK calls and log.  The blob endpoint never parses the body as JSON, on
    any method, and the table endpoint never reads its bytes. *)
Theorem reads_and_deletes_ignore_the_body :
  forall (ΣB ΣT : Type) (B : string -> string -> ContainerClient ΣB)
         (T : string -> string -> TableClient ΣT) (clock : string)
         (cs : option string) (request : HttpRequest) (bytes : list Byte.byte)
         (j : Outcome jsval) (wb : World ΣB) (wt : World ΣT),
    (method_is request "GET" \/ method_is request "DELETE" ->
     blobStorageApi B clock cs (with_body bytes j request) wb
     = blobStorageApi B clock cs request wb
     /\ tableStorageApi T cs (with_body bytes j request) wt = tableStorageApi T cs request wt)
    /\ blobStorageApi B clock cs (with_body (req_arrayBuffer request) j request) wb
       = blobStorageApi B clock cs request wb
    /\ tableStorageApi T cs (with_body bytes (req_json request) request) wt
       = tableStorageApi T cs request wt.
Proof.
  intros ΣB ΣT B T clock cs [u m q h ab j0] bytes j wb wt.
  unfold with_body, method_is.
  cbn [req_url req_method req_query req_headers req_arrayBuffer req_json].
  split; [| split; reflexivity].
  intros Hm. unfold_api. unfold query_get, headers_get.
  cbn [req_url req_method req_query req_headers req_arrayBuffer req_json].
  destruct Hm as [-> | ->]; split; reflexivity.
Qed.

Lemma reads_and_deletes_ignore_the_body_witness :
  blobStorageApi memory_blobs stamp conn
    (with_body [Byte.x00] (Threw bad_json)
       (a_request "GET" [("blobName", "a.txt")] (Returned JNull))) (start one_blob)
  = blobStorageApi memory_blobs stamp conn
      (a_request "GET" [("blobName", "a.txt")] (Returned JNull)) (start one_blob)
  /\ tableStorageApi memory_table conn
       (with_body [Byte.x00] (Threw bad_json)
          (a_request "GET" [("blobName", "a.txt")] (Returned JNull))) (start MemoryTable.empty)
     = tableStorageApi memory_table conn
         (a_request "GET" [("blobName", "a.txt")] (Returned JNull)) (start MemoryTable.empty).
Proof.
  destruct (reads_and_deletes_ignore_the_body _ _ memory_blobs memory_table stamp conn
              (a_request "GET" [("blobName", "a.txt")] (Returned JNull)) [Byte.x00]
              (Threw bad_json) (start one_blob) (start MemoryTable.empty)) as [H _].
  apply H. left. reflexivity.
Defined.

(** ** The life of a blob *)

Lemma blob_download_throws (ΣB : Type) (B : string -> string -> ContainerClient ΣB)
      (clock : string) (cs : option string) (c : string) (request : HttpRequest)
      (name : string) (w : World ΣB) (e : JsError) (s2 : ΣB) :
  truthy cs = Some c ->
  method_is request "GET" ->
  truthy (query_get request "blobName") = Some name ->
  download (B c "documents"%string) name
    (ensured_container (B c "documents"%string) (store w)) = (Threw e, s2) ->
  exists w',
    blobStorageApi B clock cs request w = (Returned (translated blob_not_found e), w')
    /\ store w' = s2.
Proof.
  intros Hc Hm Hq Hd. destruct w as [s cl lg]. revert Hm Hd.
  unfold translated. unfold_api. intros -> Hd. rewrite Hc, Hq. js_simpl.
  destruct (createIfNotExists _ _ _) as [[e0|[]] s1] eqn:Hg; js_simpl; js_simpl in Hd;
    rewrite Hd; js_simpl; destruct (status_is e 404); eexists; split; reflexivity.
Qed.

Lemma memory_delete_blob (s : MemoryContainer.state) (name : string) :
  MemoryContainer.containerExists s = true ->
  deleteBlob MemoryContainer.client name "include" s
  = match MemoryContainer.blobs s !! name with
    | Some _ => (Returned {| del_requestId := JStr "req-2" |},
                 {| MemoryContainer.containerExists := true;
                    MemoryContainer.blobs := delete name (MemoryContainer.blobs s) |})
    | None => (Threw MemoryContainer.blob_not_found, s)
    end.
Proof.
  intros Hex. cbn [deleteBlob MemoryContainer.client]. unfold MemoryContainer.in_container.
  rewrite Hex. destruct (MemoryContainer.blobs s !! name); reflexivity.
Qed.

Lemma memory_download_miss (s : MemoryContainer.state) (name : string) :
  MemoryContainer.containerExists s = true ->
  MemoryContainer.blobs s !! name = None ->
  download MemoryContainer.client name s = (Threw MemoryContainer.blob_not_found, s).
Proof.
  intros Hex Hb. cbn [download MemoryContainer.client]. unfold MemoryContainer.in_container.
  now rewrite Hex, Hb.
Qed.

(** X20: the life of a blob on the in-memory container.  After a POST of a
    name (answered 201) the listing holds an entry of that name with the
    content type of the upload; a DELETE of the name answers 200; after it a
    GET and a second DELETE of the name both answer 404. *)
Theorem blob_lifecycle :
  forall (clock : string) (cs : option string) (c : string)
         (post list get del : HttpRequest) (name : string) (st : MemoryContainer.state),
    truthy cs = Some c ->
    method_is post "POST" -> method_is list "GET" -> method_is get "GET" ->
    method_is del "DELETE" ->
    truthy (query_get post "blobName") = Some name ->
    truthy (query_get list "blobName") = None ->
    truthy (query_get get "blobName") = Some name ->
    truthy (query_get del "blobName") = Some name ->
    exists r1 w1 items w2 w3 w4 w5,
      blobStorageApi memory_blobs clock cs post (start st) = (Returned r1, w1)
      /\ status r1 = 201
      /\ blobStorageApi memory_blobs clock cs list w1 = (Returned (blob_listing items), w2)
      /\ In {| item_name := name;
               item_contentLength := js_of_nat (length (req_arrayBuffer post));
               item_lastModified := JStr "2024-01-01T00:00:00.000Z";
               item_contentType :=
                 JStr (or_else (headers_get post "content-type") "application/octet-stream") |}
            items
      /\ blobStorageApi memory_blobs clock cs del w2
         = (Returned (blob_deleted name {| del_requestId := JStr "req-2" |}), w3)
      /\ blobStorageApi memory_blobs clock cs get w3 = (Returned blob_not_found, w4)
      /\ blobStorageApi memory_blobs clock cs del w4 = (Returned blob_not_found, w5).
Proof.
  intros clock cs c post list get del name st Hc Hp Hl Hg Hd Hqp Hql Hqg Hqd.
  set (blob := {| MemoryContainer.content := req_arrayBuffer post;
                  MemoryContainer.mime := blobContentType (upload_options post clock) |}).
  set (st1 := {| MemoryContainer.containerExists := true;
                 MemoryContainer.blobs := <[name := blob]> (MemoryContainer.blobs st) |}).
  set (st3 := {| MemoryContainer.containerExists := true;
                 MemoryContainer.blobs := delete name (MemoryContainer.blobs st1) |}).
  assert (L1 : MemoryContainer.blobs st1 !! name = Some blob) by apply lookup_insert_eq.
  assert (L3 : MemoryContainer.blobs st3 !! name = None) by apply lookup_delete_eq.
  destruct (blob_post_runs memory_blobs clock cs c Hc post name (start st)
              (Returned {| up_requestId := JStr "req-1"; up_etag := JStr "0x1";
                           up_lastModified := JStr "2024-01-01T00:00:00.000Z" |})
              st1 Hp Hqp eq_refl) as (w1 & E1 & S1 & _).
  destruct (blob_list_runs memory_blobs clock cs c Hc list w1
              (Returned (map MemoryContainer.item (map_to_list (MemoryContainer.blobs st1))))
              st1 Hl Hql) as (w2 & E2 & S2 & _).
  { rewrite S1. unfold memory_blobs. now rewrite (memory_container_existing st1 eq_refl). }
  destruct (blob_delete_runs memory_blobs clock cs c Hc del name w2
              (Returned {| del_requestId := JStr "req-2" |}) st3 Hd Hqd)
    as (w3 & E3 & S3 & _).
  { rewrite S2. unfold memory_blobs. rewrite (memory_container_existing st1 eq_refl).
    rewrite memory_delete_blob by reflexivity. now rewrite L1. }
  destruct (blob_download_throws _ memory_blobs clock cs c get name w3
              MemoryContainer.blob_not_found st3 Hc Hg Hqg) as (w4 & E4 & S4).
  { rewrite S3. unfold memory_blobs. rewrite (memory_container_existing st3 eq_refl).
    now apply memory_download_miss. }
  destruct (blob_delete_runs memory_blobs clock cs c Hc del name w4
              (Threw MemoryContainer.blob_not_found) st3 Hd Hqd) as (w5 & E5 & _).
  { rewrite S4. unfold memory_blobs. rewrite (memory_container_existing st3 eq_refl).
    rewrite memory_delete_blob by reflexivity. now rewrite L3. }
  eexists _, w1, _, w2, w3, w4, w5.
  split; [exact E1 |]. split; [reflexivity |]. split; [exact E2 |].
  split; [| split; [exact E3 | split; [exact E4 | exact E5]]].
  apply (in_map MemoryContainer.item _ (name, blob)).
  apply list_elem_of_In, elem_of_map_to_list. exact L1.
Qed.

Lemma blob_lifecycle_witness :
  exists r1 w1 items w2 w3 w4 w5,
    blobStorageApi memory_blobs stamp conn text_upload (start one_blob) = (Returned r1, w1)
    /\ status r1 = 201
    /\ blobStorageApi memory_blobs stamp conn (a_request "GET" [] (Returned JNull)) w1
       = (Returned (blob_listing items), w2)
    /\ In {| item_name := "b.txt";
             item_contentLength := js_of_nat (length (req_arrayBuffer text_upload));
             item_lastModified := JStr "2024-01-01T00:00:00.000Z";
             item_contentType :=
               JStr (or_else (headers_get text_upload "content-type")
                       "application/octet-stream") |}
          items
    /\ blobStorageApi memory_blobs stamp conn
         (a_request "DELETE" [("blobName", "b.txt")] (Returned JNull)) w2
       = (Returned (blob_deleted "b.txt" {| del_requestId := JStr "req-2" |}), w3)
    /\ blobStorageApi memory_blobs stamp conn
         (a_request "GET" [("blobName", "b.txt")] (Returned JNull)) w3
       = (Returned blob_not_found, w4)
    /\ blobStorageApi memory_blobs stamp conn
         (a_request "DELETE" [("blobName", "b.txt")] (Returned JNull)) w4
       = (Returned blob_not_found, w5).
Proof.
  apply (blob_lifecycle stamp conn "UseDevelopmentStorage=true" text_upload
           (a_request "GET" [] (Returned JNull))
           (a_request "GET" [("blobName", "b.txt")] (Returned JNull))
           (a_request "DELETE" [("blobName", "b.txt")] (Returned JNull))
           "b.txt" one_blob);
    reflexivity.
Defined.
